(** * taina-backend: the /news Slack bot

    A shallow embedding of [bot.go] and [news.go], and the properties of the
    command router, the news gateway, the block renderer and the two HTTP
    handlers.

    Go strings are byte sequences: they are [String.string] here, a literal
    standing for the bytes of its UTF-8 encoding.  Everything the bot does to
    the outside world (a log line, a status written to the response, a
    goroutine started, a call on the news source, a message posted) is an
    [event] appended to a trace carried by a state monad; a runtime panic
    (a slice or an index out of range) is the [None] of the underlying
    option monad. *)

From Stdlib Require Import String Ascii List ZArith Lia Bool.
From ExtLib Require Import Structures.Monad Structures.MonadState.
From ExtLib Require Import Data.Monads.StateMonad Data.Monads.OptionMonad.
Import ListNotations MonadNotation.

Local Open Scope monad_scope.
Local Open Scope string_scope.
Local Open Scope list_scope.
Local Open Scope Z_scope.

#[local] Existing Instance Monad_stateT.

Notation "s1 +++ s2" := (String.append s1 s2)
  (at level 60, right associativity) : string_scope.

(** ** Package [strings] *)

Module strings.

(** [strings.HasPrefix(s, prefix)]:
    [len(s) >= len(prefix) && s[:len(prefix)] == prefix]. *)
Definition HasPrefix (s prefix : string) : bool :=
  (String.length prefix <=? String.length s)%nat
  && String.eqb (substring 0 (String.length prefix) s) prefix.

(** Membership of a byte in a cutset. *)
Fixpoint inCutset (c : ascii) (cutset : string) : bool :=
  match cutset with
  | EmptyString => false
  | String d cutset' => Ascii.eqb c d || inCutset c cutset'
  end.

(** [strings.TrimLeft] for a cutset of ASCII characters: the leading bytes
    that belong to the cutset are removed. *)
Fixpoint TrimLeft (s cutset : string) : string :=
  match s with
  | EmptyString => EmptyString
  | String c s' => if inCutset c cutset then TrimLeft s' cutset else s
  end.

(** [strings.TrimRight] for a cutset of ASCII characters: the trailing
    bytes that belong to the cutset are removed. *)
Fixpoint TrimRight (s cutset : string) : string :=
  match s with
  | EmptyString => EmptyString
  | String c s' =>
      match TrimRight s' cutset with
      | EmptyString => if inCutset c cutset then EmptyString else String c EmptyString
      | t => String c t
      end
  end.

(** [strings.Trim(s, cutset)] for a cutset of ASCII characters; the
    library trims the right end first, then the left one. *)
Definition Trim (s cutset : string) : string :=
  TrimLeft (TrimRight s cutset) cutset.

(** Every byte of [s] belongs to [cutset]. *)
Fixpoint allIn (cutset s : string) : bool :=
  match s with
  | EmptyString => true
  | String c s' => inCutset c cutset && allIn cutset s'
  end.

(** The first and the last byte of a string. *)
Definition first (s : string) : option ascii :=
  match s with
  | EmptyString => None
  | String c _ => Some c
  end.

Fixpoint last (s : string) : option ascii :=
  match s with
  | EmptyString => None
  | String c EmptyString => Some c
  | String _ s' => last s'
  end.

(** The bytes a whitespace trim removes in the ASCII range: tab, line
    feed, vertical tab, form feed, carriage return and space (what
    [unicode.IsSpace] accepts below 0x80). *)
Definition asciiSpace : string :=
  String "009" (String "010" (String "011" (String "012" (String "013" " ")))).

(** [strings.TrimSpace] on the ASCII range.  The bot does not call it; it
    is the reading of "surrounding whitespace trimmed" that the router is
    compared with. *)
Definition TrimSpace (s : string) : string := Trim s asciiSpace.

End strings.

(** ** Package [nyttop] (the New York Times client) *)

Module nyttop.

(** The client's errors: its sentinel for an unknown section, and every
    other failure (network, decoding, quota). *)
Inductive error :=
| ErrInvalidSection
| ErrOther (msg : string).

(** The fields of [nyttop.Article] that [news.go] reads; [Time] stands for
    [time.Time]. *)
Record Article (Time : Type) := {
  Title : string;
  Abstract : string;
  ShortURL : string;
  PublishedAt : Time
}.
Arguments Title {Time} _.
Arguments Abstract {Time} _.
Arguments ShortURL {Time} _.
Arguments PublishedAt {Time} _.

End nyttop.

(** ** Errors and results *)

(** The values of Go's [error] interface that reach the bot: the sentinel
    [ErrInvalidSection] of [news.go], an error of the news client handed on
    as it is, and any error of [net/http], [encoding/json] or the Slack
    client. *)
Inductive error :=
| ErrInvalidSection
| ErrNyttop (e : nyttop.error)
| ErrOther (msg : string).

(** [err == ErrInvalidSection]. *)
Definition isErrInvalidSection (err : error) : bool :=
  match err with
  | ErrInvalidSection => true
  | _ => false
  end.

(** A Go result pair [(v, err)]: callers look at [v] only when [err] is nil. *)
Inductive result (A : Type) :=
| Ok (v : A)
| Err (err : error).
Arguments Ok {A} v.
Arguments Err {A} err.

(** ** Package [slack] (the parts of slack-go the bot touches) *)

Module slack.

Definition ResponseTypeInChannel : string := "in_channel".
Definition ResponseTypeEphemeral : string := "ephemeral".

Record TextBlockObject := {
  tbType : string;
  tbText : string
}.

Record OptionBlockObject := {
  optText : option TextBlockObject;
  optValue : string
}.

Record SelectBlockElement := {
  selType : string;
  selOptions : list OptionBlockObject
}.

Record Accessory := {
  SelectElement : option SelectBlockElement
}.

(** The three kinds of block the bot builds, with the fields it sets. *)
Inductive Block :=
| HeaderBlock (type : string) (text : option TextBlockObject)
| SectionBlock (type : string) (text : option TextBlockObject)
               (accessory : option Accessory)
| DividerBlock (type : string).

Inductive MsgOption :=
| MsgOptionResponseURL (url : string) (responseType : string)
| MsgOptionText (text : string) (escape : bool)
| MsgOptionBlocks (blocks : list Block).

(** The fields of [slack.SlashCommand] the bot reads. *)
Record SlashCommand := {
  scToken : string;
  Command : string;
  Text : string;
  scResponseURL : string;
  scChannelID : string
}.

(** [SlashCommand.ValidateToken(verificationTokens ...string)]: the
    command's token is one of the given tokens. *)
Definition ValidateToken (s : SlashCommand) (verificationTokens : list string) : bool :=
  existsb (String.eqb (scToken s)) verificationTokens.

Record BlockAction := {
  SelectedOption : OptionBlockObject
}.

Record ActionCallbacks := {
  BlockActions : list BlockAction
}.

Record Container := {
  ChannelID : string
}.

(** The fields of [slack.InteractionCallback] the bot reads. *)
Record InteractionCallback := {
  Token : string;
  ResponseURL : string;
  icContainer : Container;
  ActionCallback : ActionCallbacks
}.

(** [*slack.Client]: [PostMessage] answers with an error or with nil (the
    channel and the timestamp it also returns are dropped by the bot). *)
Record Client := {
  PostMessage : string -> list MsgOption -> option error
}.

End slack.

(** ** Package [net/http] *)

Module http.

Definition StatusOK : Z := 200.
Definition StatusBadRequest : Z := 400.
Definition StatusUnauthorized : Z := 401.
Definition StatusInternalServerError : Z := 500.

(** [url.Values]: a key with the values posted for it. *)
Definition Values := list (string * list string).

(** [Values.Get(key)]: the first value of the key, the empty string when
    there is none. *)
Fixpoint Get (v : Values) (key : string) : string :=
  match v with
  | [] => ""
  | (k, vs) :: v' =>
      if String.eqb k key then
        match vs with
        | [] => ""
        | x :: _ => x
        end
      else Get v' key
  end.

End http.

(** ** The events of a run *)

(** A goroutine the handlers start. *)
Inductive Task :=
| GoProcessCommand (channelID responseURL params : string)
| GoHandleTopRequest (channelID responseURL params : string).

(** An argument of [log.Println]. *)
Inductive logArg :=
| LStr (s : string)
| LErr (err : error).

Inductive event :=
| EvLog (args : list logArg)
| EvWriteHeader (statusCode : Z)
| EvWrite (body : string)
| EvGo (t : Task)
| EvTopStories (section : string) (topN : Z)
| EvPostMessage (channelID : string) (options : list slack.MsgOption).

(** The monad of the bot's code: the trace of events so far, and [None] for
    a panic. *)
Definition M : Type -> Type := stateT (list event) option.

Definition emit (e : event) : M unit :=
  modify (fun tr => tr ++ [e]) ;; ret tt.

Definition panic {A : Type} : M A := mkStateT (fun _ => None).

(** The trace of a computation started on the empty trace. *)
Definition exec {A : Type} (m : M A) : option (list event) :=
  match runStateT m [] with
  | Some (_, tr) => Some tr
  | None => None
  end.

Definition Println (args : list logArg) : M unit := emit (EvLog args).
Definition WriteHeader (statusCode : Z) : M unit := emit (EvWriteHeader statusCode).
Definition Fprint (body : string) : M unit := emit (EvWrite body).
Definition go (t : Task) : M unit := emit (EvGo t).

(** [s[n:]]: a panic when [n] is beyond the end of [s]. *)
Definition sliceFrom (s : string) (n : nat) : M string :=
  if (n <=? String.length s)%nat
  then ret (substring n (String.length s - n) s)
  else panic.

(** [l[i]]: a panic when [i] is out of range. *)
Definition index {A : Type} (l : list A) (i : nat) : M A :=
  match nth_error l i with
  | Some x => ret x
  | None => panic
  end.

(** ** news.go *)

(** Article holds the information needed to render a Slack Block response. *)
Record Article := {
  Title : string;
  Abstract : string;
  URL : string;
  PublishedAt : string
}.

(** The [NewsSource] interface. *)
Class NewsSource (T : Type) := {
  TopStories : T -> string -> Z -> result (list Article);
  SupportedSections : T -> list string;
  UserFriendlySection : T -> string -> string
}.

(** NYTimes can communicate with The New York Times API. *)
Record NYTimes := {
  APIKey : string
}.

Definition NewNYTimes (apiKey : string) : NYTimes :=
  {| APIKey := apiKey |}.

Section NewsGateway.

(** [time.Time], and [t.Local().Format("January 02, 2006")]. *)
Variable Time : Type.
Variable formatLocal : Time -> string.

(** [nyttop.New(apiKey).TopNStories(ctx, section, topN)]: the answer of
    the upstream provider. *)
Variable TopNStories :
  string -> string -> Z -> list (nyttop.Article Time) * option nyttop.error.

(** [nyttop.Sections], the client's map from a section to its label; a Go
    map answers the empty string for a missing key. *)
Variable Sections : string -> option string.

(** TopStories retrieves the top stories from The NY Times. *)
Definition NYTimes_TopStories (nyt : NYTimes) (section : string) (topN : Z)
  : result (list Article) :=
  let client := TopNStories (APIKey nyt) in
  match client section topN with
  | (_, Some err) =>
      match err with
      | nyttop.ErrInvalidSection => Err ErrInvalidSection
      | _ => Err (ErrNyttop err)
      end
  | (articles, None) =>
      let result := [] in
      let result :=
        fold_left
          (fun result a =>
             (* basic validation: at least a title and a link *)
             if String.eqb (nyttop.Title a) "" || String.eqb (nyttop.ShortURL a) ""
             then result
             else result ++ [ {| Title := nyttop.Title a;
                                 Abstract := nyttop.Abstract a;
                                 URL := nyttop.ShortURL a;
                                 PublishedAt := formatLocal (nyttop.PublishedAt a) |} ])
          articles result in
      Ok result
  end.

(** The test of the validation in [TopStories]: the item has a title and a
    link. *)
Definition hasTitleAndLink (a : nyttop.Article Time) : bool :=
  negb (String.eqb (nyttop.Title a) "" || String.eqb (nyttop.ShortURL a) "").

(** The [Article] that [TopStories] makes of an upstream item. *)
Definition toArticle (a : nyttop.Article Time) : Article :=
  {| Title := nyttop.Title a;
     Abstract := nyttop.Abstract a;
     URL := nyttop.ShortURL a;
     PublishedAt := formatLocal (nyttop.PublishedAt a) |}.

(** SupportedSections returns the names of the supported sections. *)
Definition NYTimes_SupportedSections (nyt : NYTimes) : list string :=
  [ "home"; "arts"; "automobile"; "books"; "business"; "fashion"; "food";
    "health"; "movies"; "politics"; "realestate"; "science"; "sports";
    "technology"; "theater"; "travel"; "us"; "world" ].

(** UserFriendlySection receives a section name and returns the user
    readable name for it. *)
Definition NYTimes_UserFriendlySection (nyt : NYTimes) (section : string) : string :=
  match Sections section with
  | Some label => label
  | None => ""
  end.

#[local] Instance NYTimes_NewsSource : NewsSource NYTimes := {
  TopStories := NYTimes_TopStories;
  SupportedSections := NYTimes_SupportedSections;
  UserFriendlySection := NYTimes_UserFriendlySection
}.

(** The earlier revision of [TopStories], kept next to [bot.go]: every
    upstream item is converted, none is skipped, and an article has no
    publication date yet. *)
Definition NYTimes_TopStories_rev0 (nyt : NYTimes) (section : string) (topN : Z)
  : result (list Article) :=
  let client := TopNStories (APIKey nyt) in
  match client section topN with
  | (_, Some err) =>
      match err with
      | nyttop.ErrInvalidSection => Err ErrInvalidSection
      | _ => Err (ErrNyttop err)
      end
  | (articles, None) =>
      let result := [] in
      let result :=
        fold_left
          (fun result a =>
             result ++ [ {| Title := nyttop.Title a;
                            Abstract := nyttop.Abstract a;
                            URL := nyttop.ShortURL a;
                            PublishedAt := "" |} ])
          articles result in
      Ok result
  end.

End NewsGateway.

(** ** bot.go *)

Record Bot (T : Type) := {
  newsSource : T;
  slackVerificationToken : string;
  slackClient : slack.Client
}.
Arguments newsSource {T} _.
Arguments slackVerificationToken {T} _.
Arguments slackClient {T} _.

Section BotCode.

Context {T : Type} `{NewsSource T}.

(** [b.slackClient.PostMessage(channelID, options...)] followed by the
    [if err != nil] that logs a failed delivery. *)
Definition postMessage (b : Bot T) (channelID : string)
           (options : list slack.MsgOption) : M unit :=
  emit (EvPostMessage channelID options) ;;
  match slack.PostMessage (slackClient b) channelID options with
  | Some err => Println [LStr "error sending message:"; LErr err]
  | None => ret tt
  end.

Definition handleTopRequest (b : Bot T) (channelID responseURL params : string)
  : M unit :=
  let params := strings.Trim params " " in
  let params :=
    if (String.length params =? 0)%nat
    then (* if no category is passed we default to top stories on the homepage *)
      "home"
    else params in
  (* Fetch top 3 stories *)
  emit (EvTopStories params 3) ;;
  match TopStories (newsSource b) params 3 with
  | Err err =>
      Println [LStr "error requesting top stories:"; LErr err] ;;
      let errMessage := "⚠️ Oops, something went wrong on our side. Try again later!" in
      let errMessage :=
        if isErrInvalidSection err
        then "⚠️ That's not a valid news section! Try requesting `/news help` to learn how to use this app!"
        else errMessage in
      postMessage b channelID
        [ slack.MsgOptionResponseURL responseURL slack.ResponseTypeEphemeral;
          slack.MsgOptionText errMessage true ]
  | Ok articles =>
      (* build Block message and replace response *)
      let message : list slack.Block := [] in
      let message :=
        message ++
        [ slack.HeaderBlock "header"
            (Some {| slack.tbType := "plain_text";
                     slack.tbText := "Here are the top stories 🗞" |}) ] in
      let message :=
        fold_left
          (fun message a =>
             message ++
             [ slack.SectionBlock "section"
                 (Some {| slack.tbType := "mrkdwn";
                          slack.tbText :=
                            "<" +++ URL a +++ "|" +++ Title a +++ ">"
                                +++ String "010" (Abstract a) |})
                 None;
               slack.DividerBlock "divider" ])
          articles message in
      postMessage b channelID
        [ slack.MsgOptionBlocks message;
          slack.MsgOptionResponseURL responseURL slack.ResponseTypeEphemeral ]
  end.

(** handleHelpRequest returns a Slack Block Kit structure that renders an
    interactive 'help' view every time an incorrect slash command is sent. *)
Definition handleHelpRequest (b : Bot T) (channelID responseURL : string) : M unit :=
  let message : list slack.Block := [] in
  let message :=
    message ++
    [ slack.HeaderBlock "header"
        (Some {| slack.tbType := "plain_text"; slack.tbText := "How to use" |});
      slack.DividerBlock "divider";
      slack.SectionBlock "section"
        (Some {| slack.tbType := "mrkdwn"; slack.tbText := "Choose a news section" |})
        (Some {| slack.SelectElement :=
           Some {| slack.selType := "static_select";
                   slack.selOptions :=
                     [ {| slack.optText :=
                            Some {| slack.tbType := "plain_text"; slack.tbText := "General" |};
                          slack.optValue := "home" |};
                       {| slack.optText :=
                            Some {| slack.tbType := "plain_text"; slack.tbText := "Arts" |};
                          slack.optValue := "arts" |};
                       {| slack.optText :=
                            Some {| slack.tbType := "plain_text"; slack.tbText := "Politics" |};
                          slack.optValue := "politics" |} ] |} |}) ] in
  postMessage b channelID
    [ slack.MsgOptionBlocks message;
      slack.MsgOptionResponseURL responseURL slack.ResponseTypeEphemeral ].

Definition processCommand (b : Bot T) (channelID responseURL params : string)
  : M unit :=
  if strings.HasPrefix params "stories" then
    rest <- sliceFrom params 7 ;;
    handleTopRequest b channelID responseURL rest
  else
    handleHelpRequest b channelID responseURL.

(** The body of a goroutine. *)
Definition runTask (b : Bot T) (t : Task) : M unit :=
  match t with
  | GoProcessCommand channelID responseURL params =>
      processCommand b channelID responseURL params
  | GoHandleTopRequest channelID responseURL params =>
      handleTopRequest b channelID responseURL params
  end.

Section Handlers.

(** [*http.Request], and the library functions that read it:
    [slack.SlashCommandParse(r)], [r.ParseForm()] giving [r.PostForm],
    [json.Unmarshal] into a [slack.InteractionCallback], and
    [strings.ToLower]. *)
Variable Request : Type.
Variable SlashCommandParse : Request -> result slack.SlashCommand.
Variable ParseForm : Request -> result http.Values.
Variable Unmarshal : string -> result slack.InteractionCallback.
Variable ToLower : string -> string.

(** HandleSlashCommand handles a slash command request. *)
Definition HandleSlashCommand (b : Bot T) (r : Request) : M unit :=
  match SlashCommandParse r with
  | Err err =>
      Println [LStr "error parsing slash command:"; LErr err] ;;
      WriteHeader http.StatusInternalServerError
  | Ok s =>
      if negb (slack.ValidateToken s [slackVerificationToken b]) then
        Println [LStr "invalid token"] ;;
        WriteHeader http.StatusUnauthorized
      else if negb (String.eqb (slack.Command s) "/news") then
        Println [LStr "unexpected slash command:"; LStr (slack.Command s)] ;;
        WriteHeader http.StatusBadRequest
      else
        (* return 200 immediately; the command is processed async *)
        WriteHeader http.StatusOK ;;
        go (GoProcessCommand (slack.scChannelID s) (slack.scResponseURL s)
                             (ToLower (slack.Text s)))
  end.

(** HandleHelpInteraction handles a request coming from a 'help' view
    interaction. *)
Definition HandleHelpInteraction (b : Bot T) (r : Request) : M unit :=
  match ParseForm r with
  | Err err =>
      Println [LStr "error parsing interactive request:"; LErr err] ;;
      WriteHeader http.StatusBadRequest
  | Ok PostForm =>
      let payload := http.Get PostForm "payload" in
      match Unmarshal payload with
      | Err err =>
          Println [LStr "error parsing interactive request:"; LErr err] ;;
          WriteHeader http.StatusBadRequest
      | Ok interaction =>
          if negb (String.eqb (slack.Token interaction) (slackVerificationToken b)) then
            Println [LStr "invalid token"] ;;
            WriteHeader http.StatusUnauthorized
          else if negb (List.length (slack.BlockActions (slack.ActionCallback interaction)) =? 1)%nat then
            Println [LStr "unexpected amount of actions received"] ;;
            WriteHeader http.StatusBadRequest
          else
            (* return 200 immediately; the command is processed async *)
            WriteHeader http.StatusOK ;;
            action <- index (slack.BlockActions (slack.ActionCallback interaction)) 0 ;;
            go (GoHandleTopRequest
                  (slack.ChannelID (slack.icContainer interaction))
                  (slack.ResponseURL interaction)
                  (slack.optValue (slack.SelectedOption action)))
      end
  end.

End Handlers.

End BotCode.

(** ** main.go *)

(** The handler registered for "/" next to the two handlers of the bot. *)
Definition helloWorld : M unit := Fprint "Hello world!".

(** The process environment: a variable is set to a value or unset. *)
Definition Env : Type := string -> option string.

(** [os.Getenv(key)]: the value of the variable, the empty string when it is
    unset. *)
Definition Getenv (env : Env) (key : string) : string :=
  match env key with
  | Some value => value
  | None => ""
  end.

Record Config := {
  nytAPIKey : string;
  slackBotToken : string;
  cfgSlackVerificationToken : string
}.

Section Main.

(** [godotenv.Load()]: the environment after the .env file has been read
    into it; the error it returns is dropped by [initConfig]. *)
Variable Load : Env -> Env.

(** [slack.New(token)]: the client for an OAuth token. *)
Variable New : string -> slack.Client.

(** [initConfig], with the environment it leaves behind. *)
Definition initConfig (env : Env) : Config * Env :=
  let env :=
    if String.eqb (Getenv env "ENV") "taina-local" then Load env else env in
  ({| nytAPIKey := Getenv env "NYT_API_KEY";
      slackBotToken := Getenv env "SLACK_BOT_TOKEN";
      cfgSlackVerificationToken := Getenv env "SLACK_VERIFICATION_TOKEN" |},
   env).

(** NewBot instantiates a new Bot. *)
Definition NewBot {T : Type} (source : T) (slackOAuthToken verificationToken : string)
  : Bot T :=
  {| newsSource := source;
     slackVerificationToken := verificationToken;
     slackClient := New slackOAuthToken |}.

(** The first three statements of [main]: the configuration, the news
    client and the bot. *)
Definition mainBot (env : Env) : Bot NYTimes :=
  let cfg := fst (initConfig env) in
  let nytClient := NewNYTimes (nytAPIKey cfg) in
  NewBot nytClient (slackBotToken cfg) (cfgSlackVerificationToken cfg).

End Main.

(** The handler functions [main] registers. *)
Inductive HandlerFunc :=
| HelloWorld
| SlashCommand
| HelpInteraction.

(** [http.ServeMux]: the registered patterns with their handlers, in the
    order of registration. *)
Definition ServeMux : Type := list (string * HandlerFunc).

(** [mux.HandleFunc(pattern, handler)]: a panic ([None]) for the empty
    pattern and for a pattern registered before. *)
Definition HandleFunc (mux : ServeMux) (pattern : string) (handler : HandlerFunc)
  : option ServeMux :=
  if String.eqb pattern "" then None
  else if existsb (fun e => String.eqb (fst e) pattern) mux then None
  else Some (mux ++ [(pattern, handler)]).

(** The first half of [ServeMux.match]: the pattern equal to the path. *)
Fixpoint exactMatch (mux : ServeMux) (path : string) : option HandlerFunc :=
  match mux with
  | [] => None
  | (pattern, handler) :: mux' =>
      if String.eqb pattern path then Some handler else exactMatch mux' path
  end.

(** The second half: of the patterns that end in a slash and are a prefix
    of the path, the longest. *)
Fixpoint longestMatch (mux : ServeMux) (path : string)
         (best : option (string * HandlerFunc)) : option HandlerFunc :=
  match mux with
  | [] => option_map snd best
  | (pattern, handler) :: mux' =>
      let longer :=
        match best with
        | Some (pattern', _) => (String.length pattern' <? String.length pattern)%nat
        | None => true
        end in
      let candidate :=
        match strings.last pattern with
        | Some c => Ascii.eqb c "/" && strings.HasPrefix path pattern
        | None => false
        end in
      if candidate && longer
      then longestMatch mux' path (Some (pattern, handler))
      else longestMatch mux' path best
  end.

(** [ServeMux.match(path)], on a path that is already clean (the mux
    answers a path that is not with a redirect, before any match). *)
Definition muxMatch (mux : ServeMux) (path : string) : option HandlerFunc :=
  match exactMatch mux path with
  | Some handler => Some handler
  | None => longestMatch mux path None
  end.

(** The patterns of [main]: with the handler for "/" in the revision that
    shuts down gracefully, without it in the earlier one. *)
Definition routes : option ServeMux :=
  r <- Some [] ;;
  r <- HandleFunc r "/" HelloWorld ;;
  r <- HandleFunc r "/receive" SlashCommand ;;
  HandleFunc r "/receive/help" HelpInteraction.

Definition routes_rev0 : option ServeMux :=
  r <- Some [] ;;
  r <- HandleFunc r "/receive" SlashCommand ;;
  HandleFunc r "/receive/help" HelpInteraction.

(** [http.NotFound]: the answer of the mux when no pattern matches. *)
Definition NotFound : M unit :=
  WriteHeader 404 ;;
  Fprint ("404 page not found" +++ String "010" "").

Section Server.

Context {T : Type} `{NewsSource T}.
Variable Request : Type.
Variable SlashCommandParse : Request -> result slack.SlashCommand.
Variable ParseForm : Request -> result http.Values.
Variable Unmarshal : string -> result slack.InteractionCallback.
Variable ToLower : string -> string.

(** The mux serving a request on a clean path. *)
Definition ServeHTTP (mux : ServeMux) (b : Bot T) (path : string) (r : Request)
  : M unit :=
  match muxMatch mux path with
  | Some HelloWorld => helloWorld
  | Some SlashCommand => HandleSlashCommand Request SlashCommandParse ToLower b r
  | Some HelpInteraction => HandleHelpInteraction Request ParseForm Unmarshal b r
  | None => NotFound
  end.

End Server.

(** ** Reading a trace *)

(** The status of the response: the first [WriteHeader] counts, and a
    handler that writes none answers 200. *)
Fixpoint statusOf (tr : list event) : Z :=
  match tr with
  | [] => http.StatusOK
  | EvWriteHeader statusCode :: _ => statusCode
  | _ :: tr' => statusOf tr'
  end.

(** The body of the response: what was written to it, in order. *)
Fixpoint bodyOf (tr : list event) : string :=
  match tr with
  | [] => ""
  | EvWrite body :: tr' => body +++ bodyOf tr'
  | _ :: tr' => bodyOf tr'
  end.

(** The goroutines started. *)
Fixpoint spawned (tr : list event) : list Task :=
  match tr with
  | [] => []
  | EvGo t :: tr' => t :: spawned tr'
  | _ :: tr' => spawned tr'
  end.

(** The calls on the news source. *)
Fixpoint fetches (tr : list event) : list (string * Z) :=
  match tr with
  | [] => []
  | EvTopStories section topN :: tr' => (section, topN) :: fetches tr'
  | _ :: tr' => fetches tr'
  end.

(** The messages handed to the Slack client. *)
Fixpoint posts (tr : list event) : list (string * list slack.MsgOption) :=
  match tr with
  | [] => []
  | EvPostMessage channelID options :: tr' => (channelID, options) :: posts tr'
  | _ :: tr' => posts tr'
  end.

(** An event other than a log line. *)
Definition isEffect (e : event) : bool :=
  match e with
  | EvLog _ => false
  | _ => true
  end.

(** The response type a list of message options ends up with: each
    [MsgOptionResponseURL] overwrites the one before. *)
Fixpoint responseTypeOf (options : list slack.MsgOption) : option string :=
  match options with
  | [] => None
  | slack.MsgOptionResponseURL _ responseType :: options' =>
      match responseTypeOf options' with
      | Some later => Some later
      | None => Some responseType
      end
  | _ :: options' => responseTypeOf options'
  end.

(** The deferred response target of a message. *)
Fixpoint responseURLOf (options : list slack.MsgOption) : option string :=
  match options with
  | [] => None
  | slack.MsgOptionResponseURL url _ :: options' =>
      match responseURLOf options' with
      | Some later => Some later
      | None => Some url
      end
  | _ :: options' => responseURLOf options'
  end.

(** The blocks and the plain text a list of message options carries. *)
Fixpoint blocksOf (options : list slack.MsgOption) : list slack.Block :=
  match options with
  | [] => []
  | slack.MsgOptionBlocks blocks :: options' => blocks ++ blocksOf options'
  | _ :: options' => blocksOf options'
  end.

Fixpoint textsOf (options : list slack.MsgOption) : list string :=
  match options with
  | [] => []
  | slack.MsgOptionText text _ :: options' => text :: textsOf options'
  | _ :: options' => textsOf options'
  end.

Definition isEphemeral (options : list slack.MsgOption) : bool :=
  match responseTypeOf options with
  | Some responseType => String.eqb responseType "ephemeral"
  | None => false
  end.

(** Every message of the trace is posted with the ephemeral response type. *)
Definition allEphemeral (tr : list event) : bool :=
  forallb (fun p => isEphemeral (snd p)) (posts tr).

(** The header of the top-stories message, and the two blocks
    [handleTopRequest] appends for an article. *)
Definition topStoriesHeader : slack.Block :=
  slack.HeaderBlock "header"
    (Some {| slack.tbType := "plain_text";
             slack.tbText := "Here are the top stories 🗞" |}).

Definition articleBlocks (a : Article) : list slack.Block :=
  [ slack.SectionBlock "section"
      (Some {| slack.tbType := "mrkdwn";
               slack.tbText :=
                 "<" +++ URL a +++ "|" +++ Title a +++ ">"
                     +++ String "010" (Abstract a) |})
      None;
    slack.DividerBlock "divider" ].

(** The two messages of the error path. *)
Definition invalidSectionMessage : string :=
  "⚠️ That's not a valid news section! Try requesting `/news help` to learn how to use this app!".

Definition retryMessage : string :=
  "⚠️ Oops, something went wrong on our side. Try again later!".

(** The blocks of all the messages of a trace. *)
Definition postedBlocks (tr : list event) : list slack.Block :=
  flat_map (fun p => blocksOf (snd p)) (posts tr).

(** The kind of a block. *)
Inductive blockKind := Header | Content | Divider.

Definition kindOf (blk : slack.Block) : blockKind :=
  match blk with
  | slack.HeaderBlock _ _ => Header
  | slack.SectionBlock _ _ _ => Content
  | slack.DividerBlock _ => Divider
  end.

(** The values of the options a block lets the user select. *)
Definition optionValues (blk : slack.Block) : list string :=
  match blk with
  | slack.SectionBlock _ _ (Some {| slack.SelectElement := Some sel |}) =>
      map slack.optValue (slack.selOptions sel)
  | _ => []
  end.

(** The label and the value of each option a block lets the user select. *)
Definition optionPairs (blk : slack.Block) : list (string * string) :=
  match blk with
  | slack.SectionBlock _ _ (Some {| slack.SelectElement := Some sel |}) =>
      map (fun o => (match slack.optText o with
                     | Some t => slack.tbText t
                     | None => ""
                     end,
                     slack.optValue o))
          (slack.selOptions sel)
  | _ => []
  end.

(** The text of a block. *)
Definition blockText (blk : slack.Block) : string :=
  match blk with
  | slack.HeaderBlock _ (Some t) => slack.tbText t
  | slack.SectionBlock _ (Some t) _ => slack.tbText t
  | _ => ""
  end.

(** ** A request from the handler to the end of its goroutines *)

Section Serve.

Context {T : Type} `{NewsSource T}.

(** What follows a [PostMessage] in the trace: the log line of a failed
    delivery, or nothing. *)
Definition deliveryLog (b : Bot T) (channelID : string)
           (options : list slack.MsgOption) : list event :=
  match slack.PostMessage (slackClient b) channelID options with
  | Some err => [EvLog [LStr "error sending message:"; LErr err]]
  | None => []
  end.

(** The section [handleTopRequest] asks the news source for. *)
Definition requestedSection (params : string) : string :=
  let params := strings.Trim params " " in
  if (String.length params =? 0)%nat then "home" else params.

(** The traces of the goroutines, one after the other; a panic in one of
    them brings the process down. *)
Fixpoint runTasks (b : Bot T) (ts : list Task) : option (list event) :=
  match ts with
  | [] => Some []
  | t :: ts' =>
      match exec (runTask b t), runTasks b ts' with
      | Some tr, Some tr' => Some (tr ++ tr')
      | _, _ => None
      end
  end.

(** The handler's trace followed by the traces of the goroutines it
    started. *)
Definition serve (b : Bot T) (handler : M unit) : option (list event) :=
  match exec handler with
  | Some tr =>
      match runTasks b (spawned tr) with
      | Some tr' => Some (tr ++ tr')
      | None => None
      end
  | None => None
  end.

End Serve.

(** ** Test doubles *)

Module Fixture.

(** An upstream that knows three sections and answers with three items,
    the second without a title. *)
Definition TopNStories (apiKey section : string) (topN : Z)
  : list (nyttop.Article Z) * option nyttop.error :=
  if existsb (String.eqb section) ["home"; "arts"; "politics"] then
    ([ {| nyttop.Title := "First"; nyttop.Abstract := "One";
          nyttop.ShortURL := "https://nyti.ms/1"; nyttop.PublishedAt := 0 |};
       {| nyttop.Title := ""; nyttop.Abstract := "Two";
          nyttop.ShortURL := "https://nyti.ms/2"; nyttop.PublishedAt := 0 |};
       {| nyttop.Title := "Third"; nyttop.Abstract := "Three";
          nyttop.ShortURL := "https://nyti.ms/3"; nyttop.PublishedAt := 0 |} ],
     None)
  else if String.eqb section "down" then
    ([], Some (nyttop.ErrOther "503"))
  else
    ([], Some nyttop.ErrInvalidSection).

Definition formatLocal (t : Z) : string := "January 01, 1970".

Definition Sections (section : string) : option string :=
  if String.eqb section "home" then Some "Home" else None.

Definition source : NewsSource NYTimes :=
  NYTimes_NewsSource Z formatLocal TopNStories Sections.

#[local] Existing Instance source.

(** What the gateway makes of the upstream's answer. *)
Definition stories : list Article :=
  [ {| Title := "First"; Abstract := "One"; URL := "https://nyti.ms/1";
       PublishedAt := "January 01, 1970" |};
    {| Title := "Third"; Abstract := "Three"; URL := "https://nyti.ms/3";
       PublishedAt := "January 01, 1970" |} ].

Definition client : slack.Client :=
  {| slack.PostMessage := fun _ _ => None |}.

Definition bot : Bot NYTimes :=
  {| newsSource := NewNYTimes "key";
     slackVerificationToken := "secret";
     slackClient := client |}.

(** A request is what the library parsers read out of it. *)
Inductive Request :=
| Malformed
| Slash (s : slack.SlashCommand)
| Form (v : http.Values).

Definition SlashCommandParse (r : Request) : result slack.SlashCommand :=
  match r with
  | Slash s => Ok s
  | _ => Err (ErrOther "parse")
  end.

Definition ParseForm (r : Request) : result http.Values :=
  match r with
  | Form v => Ok v
  | _ => Err (ErrOther "parse")
  end.

(** A decoder for payloads of the shape [token,value]* : the text before
    the first comma is the token, each further comma-free piece is the
    value of one selected option. *)
Fixpoint pieces (s cur : string) : list string :=
  match s with
  | EmptyString => [cur]
  | String c s' =>
      if Ascii.eqb c ","
      then cur :: pieces s' ""
      else pieces s' (cur +++ String c "")
  end.

Definition Unmarshal (payload : string) : result slack.InteractionCallback :=
  match pieces payload "" with
  | [] => Err (ErrOther "unexpected end of JSON input")
  | [""] => Err (ErrOther "unexpected end of JSON input")
  | token :: values =>
      Ok {| slack.Token := token;
            slack.ResponseURL := "https://hooks/response";
            slack.icContainer := {| slack.ChannelID := "C1" |};
            slack.ActionCallback :=
              {| slack.BlockActions :=
                   map (fun v => {| slack.SelectedOption :=
                                      {| slack.optText := None; slack.optValue := v |} |})
                       values |} |}
  end.

(** Lower case on the ASCII range. *)
Definition lowerByte (c : ascii) : ascii :=
  let n := nat_of_ascii c in
  if ((65 <=? n) && (n <=? 90))%nat then ascii_of_nat (n + 32) else c.

Fixpoint ToLower (s : string) : string :=
  match s with
  | EmptyString => EmptyString
  | String c s' => String (lowerByte c) (ToLower s')
  end.

Definition slashRequest (token command text : string) : Request :=
  Slash {| slack.scToken := token; slack.Command := command; slack.Text := text;
           slack.scResponseURL := "https://hooks/response"; slack.scChannelID := "C1" |}.

Definition helpRequest (payload : string) : Request :=
  Form [("payload", [payload])].

Definition slashHandler (r : Request) : M unit :=
  HandleSlashCommand Request SlashCommandParse ToLower bot r.

Definition helpHandler (r : Request) : M unit :=
  HandleHelpInteraction Request ParseForm Unmarshal bot r.

Definition tab : string := String "009" "".

(** An environment with the three variables of the bot, and one without
    the verification token. *)
Definition env : Env :=
  fun key =>
    if String.eqb key "NYT_API_KEY" then Some "key"
    else if String.eqb key "SLACK_BOT_TOKEN" then Some "xoxb"
    else if String.eqb key "SLACK_VERIFICATION_TOKEN" then Some "secret"
    else None.

Definition envNoSecret : Env :=
  fun key => if String.eqb key "NYT_API_KEY" then Some "key" else None.

(** A .env file that sets the verification token where it is unset. *)
Definition Load (e : Env) : Env :=
  fun key =>
    match e key with
    | Some value => Some value
    | None => if String.eqb key "SLACK_VERIFICATION_TOKEN" then Some "local" else None
    end.

Definition New (token : string) : slack.Client := client.

(** A Slack client whose deliveries all fail. *)
Definition failingClient : slack.Client :=
  {| slack.PostMessage := fun _ _ => Some (ErrOther "channel_not_found") |}.

Definition failingBot : Bot NYTimes :=
  {| newsSource := NewNYTimes "key";
     slackVerificationToken := "secret";
     slackClient := failingClient |}.

End Fixture.

(** * Properties *)

(** ** Strings *)

Section StringFacts.

Import strings.

Lemma append_nil_r (s : string) : s +++ "" = s.
Proof. induction s as [|c s IH]; simpl; [reflexivity | now rewrite IH]. Qed.

Lemma append_assoc (s t u : string) : (s +++ t) +++ u = s +++ t +++ u.
Proof. induction s as [|c s IH]; simpl; [reflexivity | now rewrite IH]. Qed.

Lemma length_append (s t : string) :
  String.length (s +++ t) = (String.length s + String.length t)%nat.
Proof. induction s as [|c s IH]; simpl; [reflexivity | now rewrite IH]. Qed.

Lemma substring_all (s : string) : substring 0 (String.length s) s = s.
Proof. induction s as [|c s IH]; simpl; [reflexivity | now rewrite IH]. Qed.

Lemma substring_prefix (p rest : string) :
  substring 0 (String.length p) (p +++ rest) = p.
Proof.
  induction p as [|c p IH]; simpl.
  - now destruct rest.
  - now rewrite IH.
Qed.

Lemma substring_split (n : nat) (s : string) :
  (n <= String.length s)%nat ->
  s = substring 0 n s +++ substring n (String.length s - n) s.
Proof.
  revert s. induction n as [|n IH]; intros s Hn.
  - simpl. rewrite Nat.sub_0_r, substring_all. now destruct s.
  - destruct s as [|c s]; simpl in *; [lia|].
    f_equal. apply IH. lia.
Qed.

(** [HasPrefix] holds exactly of the strings that extend the prefix. *)
Lemma HasPrefix_true (s p : string) :
  HasPrefix s p = true <-> exists rest, s = p +++ rest.
Proof.
  unfold HasPrefix. rewrite andb_true_iff, Nat.leb_le, String.eqb_eq. split.
  - intros [Hlen Hsub].
    exists (substring (String.length p) (String.length s - String.length p) s).
    rewrite <- Hsub at 1. now apply substring_split.
  - intros [rest ->]. split.
    + rewrite length_append. lia.
    + apply substring_prefix.
Qed.

Lemma HasPrefix_append (p rest : string) : HasPrefix (p +++ rest) p = true.
Proof. apply HasPrefix_true. now exists rest. Qed.

Section Cutset.

Variable cutset : string.

Lemma allIn_append (s t : string) :
  allIn cutset (s +++ t) = allIn cutset s && allIn cutset t.
Proof.
  induction s as [|c s IH]; simpl; [reflexivity|].
  now rewrite IH, andb_assoc.
Qed.

(** What [TrimLeft] removes is a run of cutset bytes, and what is left
    does not start with one. *)
Lemma TrimLeft_split (s : string) :
  exists l, s = l +++ TrimLeft s cutset /\ allIn cutset l = true.
Proof.
  induction s as [|c s [l [Hs Hl]]]; simpl.
  - now exists "".
  - destruct (inCutset c cutset) eqn:Hc.
    + exists (String c l). simpl. rewrite Hc, Hl. split; [now f_equal | reflexivity].
    + now exists "".
Qed.

Lemma TrimLeft_first (s : string) (c : ascii) :
  first (TrimLeft s cutset) = Some c -> inCutset c cutset = false.
Proof.
  induction s as [|d s IH]; simpl; [discriminate|].
  destruct (inCutset d cutset) eqn:Hd; [exact IH|].
  simpl. intros [= <-]. exact Hd.
Qed.

Lemma TrimRight_split (s : string) :
  exists r, s = TrimRight s cutset +++ r /\ allIn cutset r = true.
Proof.
  induction s as [|c s [r [Hs Hr]]]; simpl.
  - now exists "".
  - destruct (TrimRight s cutset) as [|d t] eqn:Ht.
    + destruct (inCutset c cutset) eqn:Hc.
      * exists (String c r). simpl in *. rewrite Hc, Hr. now subst.
      * exists r. simpl in *. now subst.
    + exists r. split; [|exact Hr]. simpl. f_equal. exact Hs.
Qed.

Lemma TrimRight_last (s : string) (c : ascii) :
  last (TrimRight s cutset) = Some c -> inCutset c cutset = false.
Proof.
  induction s as [|d s IH]; simpl; [discriminate|].
  destruct (TrimRight s cutset) as [|e t] eqn:Ht.
  - destruct (inCutset d cutset) eqn:Hd; simpl; [discriminate|].
    intros [= <-]. exact Hd.
  - exact IH.
Qed.

Lemma TrimLeft_last (s : string) (c : ascii) :
  last (TrimLeft s cutset) = Some c -> last s = Some c.
Proof.
  induction s as [|d s IH]; simpl; [discriminate|].
  destruct (inCutset d cutset).
  - intros Hl. specialize (IH Hl). destruct s; [discriminate | exact IH].
  - trivial.
Qed.

Lemma TrimLeft_id (s : string) :
  (forall c, first s = Some c -> inCutset c cutset = false) ->
  TrimLeft s cutset = s.
Proof.
  destruct s as [|c s]; simpl; [reflexivity|].
  intros Hc. now rewrite (Hc c eq_refl).
Qed.

Lemma TrimRight_id (s : string) :
  (forall c, last s = Some c -> inCutset c cutset = false) ->
  TrimRight s cutset = s.
Proof.
  induction s as [|c s IH]; simpl; [reflexivity|].
  intros Hc. destruct s as [|d s].
  - simpl. now rewrite (Hc c eq_refl).
  - rewrite (IH Hc). reflexivity.
Qed.

Lemma TrimLeft_allIn (s : string) :
  allIn cutset s = true -> TrimLeft s cutset = "".
Proof.
  induction s as [|c s IH]; simpl; [reflexivity|].
  rewrite andb_true_iff. intros [-> Hs]. auto.
Qed.

Lemma TrimRight_allIn (s : string) :
  allIn cutset s = true -> TrimRight s cutset = "".
Proof.
  induction s as [|c s IH]; simpl; [reflexivity|].
  rewrite andb_true_iff. intros [Hc Hs]. now rewrite (IH Hs), Hc.
Qed.

(** The specification of [Trim]: the string is a run of cutset bytes,
    the result, and a run of cutset bytes; the result neither starts
    nor ends with a cutset byte. *)
Lemma Trim_spec (s : string) :
  exists l r,
    s = l +++ Trim s cutset +++ r /\
    allIn cutset l = true /\ allIn cutset r = true /\
    (forall c, first (Trim s cutset) = Some c -> inCutset c cutset = false) /\
    (forall c, last (Trim s cutset) = Some c -> inCutset c cutset = false).
Proof.
  unfold Trim.
  destruct (TrimRight_split s) as [r [Hs Hr]].
  destruct (TrimLeft_split (TrimRight s cutset)) as [l [Ht Hl]].
  exists l, r. repeat split; trivial.
  - rewrite <- append_assoc, <- Ht. exact Hs.
  - exact (TrimLeft_first _).
  - intros c Hc. apply (TrimRight_last s). now apply TrimLeft_last.
Qed.

Lemma Trim_allIn (s : string) : allIn cutset s = true -> Trim s cutset = "".
Proof. intros Hs. unfold Trim. now rewrite (TrimRight_allIn s Hs). Qed.

Lemma Trim_idempotent (s : string) :
  Trim (Trim s cutset) cutset = Trim s cutset.
Proof.
  destruct (Trim_spec s) as [_ [_ [_ [_ [_ [Hf Hl]]]]]].
  unfold Trim at 1. rewrite (TrimRight_id _ Hl). now apply TrimLeft_id.
Qed.

End Cutset.

Lemma length_zero (s : string) :
  (String.length s =? 0)%nat = String.eqb s "".
Proof. now destruct s. Qed.

End StringFacts.

(** ** Folds that append *)

Lemma fold_left_append {A B : Type} (f : A -> list B) (l : list A) (init : list B) :
  fold_left (fun acc a => acc ++ f a) l init = init ++ flat_map f l.
Proof.
  revert init. induction l as [|a l IH]; intros init; simpl.
  - now rewrite app_nil_r.
  - now rewrite IH, app_assoc.
Qed.

Lemma fold_left_append_unless {A B : Type} (skip : A -> bool) (f : A -> B)
      (l : list A) (init : list B) :
  fold_left (fun acc a => if skip a then acc else acc ++ [f a]) l init
  = init ++ map f (filter (fun a => negb (skip a)) l).
Proof.
  revert init. induction l as [|a l IH]; intros init; simpl.
  - now rewrite app_nil_r.
  - rewrite IH. destruct (skip a); simpl; [reflexivity|].
    now rewrite <- app_assoc.
Qed.

(** ** Observers and concatenation *)

Lemma fetches_app (tr tr' : list event) :
  fetches (tr ++ tr') = fetches tr ++ fetches tr'.
Proof.
  induction tr as [|e tr IH]; [reflexivity|].
  destruct e; simpl; now rewrite IH.
Qed.

Lemma posts_app (tr tr' : list event) :
  posts (tr ++ tr') = posts tr ++ posts tr'.
Proof.
  induction tr as [|e tr IH]; [reflexivity|].
  destruct e; simpl; now rewrite IH.
Qed.

Lemma spawned_app (tr tr' : list event) :
  spawned (tr ++ tr') = spawned tr ++ spawned tr'.
Proof.
  induction tr as [|e tr IH]; [reflexivity|].
  destruct e; simpl; now rewrite IH.
Qed.

Lemma allEphemeral_app (tr tr' : list event) :
  allEphemeral (tr ++ tr') = allEphemeral tr && allEphemeral tr'.
Proof. unfold allEphemeral. now rewrite posts_app, forallb_app. Qed.

(** ** Runs of the bot's code *)

Section Runs.

Context {T : Type} `{NewsSource T}.
Variable b : Bot T.

Lemma run_postMessage (channelID : string) (options : list slack.MsgOption)
      (tr : list event) :
  runStateT (postMessage b channelID options) tr
  = Some (tt, tr ++ EvPostMessage channelID options :: deliveryLog b channelID options).
Proof.
  unfold postMessage, deliveryLog.
  destruct (slack.PostMessage (slackClient b) channelID options); cbn;
    rewrite <- ?app_assoc; reflexivity.
Qed.

Lemma exec_bind_emit {A : Type} (e : event) (m : M A) (tr : list event) :
  runStateT (emit e ;; m) tr = runStateT m (tr ++ [e]).
Proof. reflexivity. Qed.

(** [handleTopRequest] when the news source fails. *)
Lemma exec_handleTopRequest_Err (channelID responseURL params : string) (err : error) :
  TopStories (newsSource b) (requestedSection params) 3 = Err err ->
  let options :=
    [ slack.MsgOptionResponseURL responseURL slack.ResponseTypeEphemeral;
      slack.MsgOptionText
        (if isErrInvalidSection err then invalidSectionMessage else retryMessage)
        true ] in
  exec (handleTopRequest b channelID responseURL params)
  = Some ([ EvTopStories (requestedSection params) 3;
            EvLog [LStr "error requesting top stories:"; LErr err];
            EvPostMessage channelID options ]
          ++ deliveryLog b channelID options).
Proof.
  intros Herr options. unfold exec, handleTopRequest.
  fold (requestedSection params). rewrite exec_bind_emit, Herr.
  unfold Println. rewrite exec_bind_emit, run_postMessage. reflexivity.
Qed.

(** [handleTopRequest] when the news source answers. *)
Lemma exec_handleTopRequest_Ok (channelID responseURL params : string)
      (articles : list Article) :
  TopStories (newsSource b) (requestedSection params) 3 = Ok articles ->
  let options :=
    [ slack.MsgOptionBlocks (topStoriesHeader :: flat_map articleBlocks articles);
      slack.MsgOptionResponseURL responseURL slack.ResponseTypeEphemeral ] in
  exec (handleTopRequest b channelID responseURL params)
  = Some ([ EvTopStories (requestedSection params) 3;
            EvPostMessage channelID options ]
          ++ deliveryLog b channelID options).
Proof.
  intros Hok options. unfold exec, handleTopRequest.
  fold (requestedSection params). rewrite exec_bind_emit, Hok.
  rewrite fold_left_append, run_postMessage. reflexivity.
Qed.

Lemma exec_handleHelpRequest (channelID responseURL : string) :
  exists options,
    exec (handleHelpRequest b channelID responseURL)
    = Some (EvPostMessage channelID options :: deliveryLog b channelID options) /\
    map kindOf (blocksOf options) = [Header; Divider; Content] /\
    flat_map optionValues (blocksOf options) = ["home"; "arts"; "politics"] /\
    textsOf options = [] /\
    responseTypeOf options = Some "ephemeral" /\
    responseURLOf options = Some responseURL.
Proof.
  unfold exec, handleHelpRequest. rewrite run_postMessage.
  eexists. split; [reflexivity|]. repeat split.
Qed.

Lemma exec_processCommand_stories (channelID responseURL rest : string) :
  exec (processCommand b channelID responseURL ("stories" +++ rest))
  = exec (handleTopRequest b channelID responseURL rest).
Proof.
  unfold exec, processCommand. rewrite HasPrefix_append.
  unfold sliceFrom. simpl String.length. simpl Nat.leb.
  simpl substring. rewrite Nat.sub_0_r, substring_all. reflexivity.
Qed.

Lemma exec_processCommand_other (channelID responseURL params : string) :
  strings.HasPrefix params "stories" = false ->
  exec (processCommand b channelID responseURL params)
  = exec (handleHelpRequest b channelID responseURL).
Proof. intros Hp. unfold exec, processCommand. now rewrite Hp. Qed.

(** The log of a delivery holds no call, no message and no goroutine. *)
Lemma deliveryLog_quiet (channelID : string) (options : list slack.MsgOption) :
  fetches (deliveryLog b channelID options) = [] /\
  posts (deliveryLog b channelID options) = [] /\
  spawned (deliveryLog b channelID options) = [] /\
  filter isEffect (deliveryLog b channelID options) = [].
Proof.
  unfold deliveryLog.
  destruct (slack.PostMessage (slackClient b) channelID options); repeat split.
Qed.

(** Every run of [handleTopRequest] ends; it asks the news source once,
    for the requested section, starts no goroutine and posts one message,
    ephemeral, to the response URL. *)
Lemma handleTopRequest_trace (channelID responseURL params : string) :
  exists tr options,
    exec (handleTopRequest b channelID responseURL params) = Some tr /\
    fetches tr = [(requestedSection params, 3)] /\
    spawned tr = [] /\
    posts tr = [(channelID, options)] /\
    isEphemeral options = true /\
    responseURLOf options = Some responseURL.
Proof.
  pose proof (fun o => proj1 (deliveryLog_quiet channelID o)) as Hf.
  pose proof (fun o => proj1 (proj2 (deliveryLog_quiet channelID o))) as Hp.
  pose proof (fun o => proj1 (proj2 (proj2 (deliveryLog_quiet channelID o)))) as Hs.
  destruct (TopStories (newsSource b) (requestedSection params) 3)
    as [articles | err] eqn:Hfetch.
  - eexists. eexists.
    rewrite (exec_handleTopRequest_Ok _ _ _ _ Hfetch).
    split; [reflexivity|].
    rewrite fetches_app, spawned_app, posts_app, Hf, Hp, Hs.
    repeat split.
  - eexists. eexists.
    rewrite (exec_handleTopRequest_Err _ _ _ _ Hfetch).
    split; [reflexivity|].
    rewrite fetches_app, spawned_app, posts_app, Hf, Hp, Hs.
    repeat split.
Qed.

(** The same for [handleHelpRequest], which asks the news source nothing. *)
Lemma handleHelpRequest_trace (channelID responseURL : string) :
  exists tr options,
    exec (handleHelpRequest b channelID responseURL) = Some tr /\
    fetches tr = [] /\
    spawned tr = [] /\
    posts tr = [(channelID, options)] /\
    isEphemeral options = true /\
    responseURLOf options = Some responseURL /\
    map kindOf (blocksOf options) = [Header; Divider; Content] /\
    flat_map optionValues (blocksOf options) = ["home"; "arts"; "politics"].
Proof.
  destruct (exec_handleHelpRequest channelID responseURL)
    as [options [Hexec [Hk [Hv [_ [Hty Hurl]]]]]].
  exists (EvPostMessage channelID options :: deliveryLog b channelID options), options.
  destruct (deliveryLog_quiet channelID options) as [Hf [Hp [Hs _]]].
  simpl. rewrite Hf, Hp, Hs.
  unfold isEphemeral. rewrite Hty. repeat split; assumption.
Qed.

End Runs.

(** ** The HTTP handlers *)

Section HandlerFacts.

Context {T : Type} `{NewsSource T}.
Variable b : Bot T.
Variable Request : Type.
Variable SlashCommandParse : Request -> result slack.SlashCommand.
Variable ParseForm : Request -> result http.Values.
Variable Unmarshal : string -> result slack.InteractionCallback.
Variable ToLower : string -> string.

Abbreviation HandleSlash := (HandleSlashCommand Request SlashCommandParse ToLower b).
Abbreviation HandleHelp := (HandleHelpInteraction Request ParseForm Unmarshal b).

Lemma ValidateToken_one (s : slack.SlashCommand) (token : string) :
  slack.ValidateToken s [token] = String.eqb (slack.scToken s) token.
Proof. unfold slack.ValidateToken. simpl. apply orb_false_r. Qed.

(** A slash command that passes the three checks is acknowledged and
    handed to a goroutine with its text in lower case. *)
Lemma exec_HandleSlashCommand_accepted (r : Request) (s : slack.SlashCommand) :
  SlashCommandParse r = Ok s ->
  slack.scToken s = slackVerificationToken b ->
  slack.Command s = "/news" ->
  exec (HandleSlash r)
  = Some [ EvWriteHeader 200;
           EvGo (GoProcessCommand (slack.scChannelID s) (slack.scResponseURL s)
                                  (ToLower (slack.Text s))) ].
Proof.
  intros Hparse Htoken Hcommand. unfold exec, HandleSlashCommand.
  rewrite Hparse, ValidateToken_one, Htoken, Hcommand, !String.eqb_refl.
  reflexivity.
Qed.

Lemma exec_HandleSlashCommand_bad_token (r : Request) (s : slack.SlashCommand) :
  SlashCommandParse r = Ok s ->
  slack.scToken s <> slackVerificationToken b ->
  exec (HandleSlash r) = Some [EvLog [LStr "invalid token"]; EvWriteHeader 401].
Proof.
  intros Hparse Htoken. unfold exec, HandleSlashCommand.
  rewrite Hparse, ValidateToken_one.
  apply String.eqb_neq in Htoken. rewrite Htoken. reflexivity.
Qed.

(** An interaction that passes the checks is acknowledged and its selected
    value handed to a goroutine. *)
Lemma exec_HandleHelpInteraction_accepted (r : Request) (form : http.Values)
      (interaction : slack.InteractionCallback) (action : slack.BlockAction) :
  ParseForm r = Ok form ->
  Unmarshal (http.Get form "payload") = Ok interaction ->
  slack.Token interaction = slackVerificationToken b ->
  slack.BlockActions (slack.ActionCallback interaction) = [action] ->
  exec (HandleHelp r)
  = Some [ EvWriteHeader 200;
           EvGo (GoHandleTopRequest
                   (slack.ChannelID (slack.icContainer interaction))
                   (slack.ResponseURL interaction)
                   (slack.optValue (slack.SelectedOption action))) ].
Proof.
  intros Hform Hjson Htoken Hactions. unfold exec, HandleHelpInteraction.
  rewrite Hform, Hjson, Htoken, Hactions, String.eqb_refl. reflexivity.
Qed.

Lemma exec_HandleHelpInteraction_bad_token (r : Request) (form : http.Values)
      (interaction : slack.InteractionCallback) :
  ParseForm r = Ok form ->
  Unmarshal (http.Get form "payload") = Ok interaction ->
  slack.Token interaction <> slackVerificationToken b ->
  exec (HandleHelp r) = Some [EvLog [LStr "invalid token"]; EvWriteHeader 401].
Proof.
  intros Hform Hjson Htoken. unfold exec, HandleHelpInteraction.
  rewrite Hform, Hjson. apply String.eqb_neq in Htoken. rewrite Htoken.
  reflexivity.
Qed.

Lemma exec_HandleHelpInteraction_bad_count (r : Request) (form : http.Values)
      (interaction : slack.InteractionCallback) :
  ParseForm r = Ok form ->
  Unmarshal (http.Get form "payload") = Ok interaction ->
  slack.Token interaction = slackVerificationToken b ->
  List.length (slack.BlockActions (slack.ActionCallback interaction)) <> 1%nat ->
  exec (HandleHelp r)
  = Some [EvLog [LStr "unexpected amount of actions received"]; EvWriteHeader 400].
Proof.
  intros Hform Hjson Htoken Hcount. unfold exec, HandleHelpInteraction.
  rewrite Hform, Hjson, Htoken, String.eqb_refl.
  apply Nat.eqb_neq in Hcount. rewrite Hcount. reflexivity.
Qed.

(** Neither handler panics, posts a message or calls the news source, and
    each starts at most one goroutine. *)
Lemma HandleSlashCommand_trace (r : Request) :
  exists tr,
    exec (HandleSlash r) = Some tr /\ posts tr = [] /\ fetches tr = [] /\
    bodyOf tr = "" /\ (List.length (spawned tr) <= 1)%nat.
Proof.
  unfold exec, HandleSlashCommand.
  destruct (SlashCommandParse r) as [s | err].
  - destruct (negb (slack.ValidateToken s [slackVerificationToken b])).
    + eexists. split; [reflexivity|]. simpl. repeat split. lia.
    + destruct (negb (String.eqb (slack.Command s) "/news")).
      * eexists. split; [reflexivity|]. simpl. repeat split. lia.
      * eexists. split; [reflexivity|]. simpl. repeat split. lia.
  - eexists. split; [reflexivity|]. simpl. repeat split. lia.
Qed.

Lemma HandleHelpInteraction_trace (r : Request) :
  exists tr,
    exec (HandleHelp r) = Some tr /\ posts tr = [] /\ fetches tr = [] /\
    bodyOf tr = "" /\ (List.length (spawned tr) <= 1)%nat.
Proof.
  unfold exec, HandleHelpInteraction.
  destruct (ParseForm r) as [form | err].
  - destruct (Unmarshal (http.Get form "payload")) as [interaction | err].
    + destruct (negb (String.eqb (slack.Token interaction) (slackVerificationToken b))).
      * eexists. split; [reflexivity|]. simpl. repeat split. lia.
      * destruct (slack.BlockActions (slack.ActionCallback interaction))
          as [|action [|action' actions]].
        -- eexists. split; [reflexivity|]. simpl. repeat split. lia.
        -- eexists. split; [reflexivity|]. simpl. repeat split. lia.
        -- eexists. split; [reflexivity|]. simpl. repeat split. lia.
    + eexists. split; [reflexivity|]. simpl. repeat split. lia.
  - eexists. split; [reflexivity|]. simpl. repeat split. lia.
Qed.

(** Every goroutine ends, starts no other and posts one message, which
    is ephemeral. *)
Lemma runTask_trace (t : Task) :
  exists tr,
    exec (runTask b t) = Some tr /\ spawned tr = [] /\
    List.length (posts tr) = 1%nat /\ allEphemeral tr = true.
Proof.
  assert (Htop : forall channelID responseURL params,
    exists tr,
      exec (handleTopRequest b channelID responseURL params) = Some tr /\
      spawned tr = [] /\ List.length (posts tr) = 1%nat /\ allEphemeral tr = true).
  { intros channelID responseURL params.
    destruct (handleTopRequest_trace b channelID responseURL params)
      as [tr [options [Hexec [_ [Hs [Hp [He _]]]]]]].
    exists tr. unfold allEphemeral. rewrite Hp. simpl. rewrite He. auto. }
  destruct t as [channelID responseURL params | channelID responseURL params];
    simpl; [|apply Htop].
  destruct (strings.HasPrefix params "stories") eqn:Hprefix.
  - apply HasPrefix_true in Hprefix. destruct Hprefix as [rest ->].
    rewrite exec_processCommand_stories. apply Htop.
  - rewrite (exec_processCommand_other b _ _ _ Hprefix).
    destruct (handleHelpRequest_trace b channelID responseURL)
      as [tr [options [Hexec [_ [Hs [Hp [He _]]]]]]].
    exists tr. unfold allEphemeral. rewrite Hp. simpl. rewrite He. auto.
Qed.

Lemma runTasks_trace (ts : list Task) :
  exists tr,
    runTasks b ts = Some tr /\ spawned tr = [] /\
    List.length (posts tr) = List.length ts /\ allEphemeral tr = true.
Proof.
  induction ts as [|t ts [tr' [Hrun [Hs [Hp He]]]]]; simpl.
  - exists []. auto.
  - destruct (runTask_trace t) as [tr [Hexec [Hs1 [Hp1 He1]]]].
    rewrite Hexec, Hrun. exists (tr ++ tr').
    rewrite spawned_app, posts_app, allEphemeral_app, length_app, Hs, Hs1, Hp, Hp1, He, He1.
    auto.
Qed.

(** A handler that starts no goroutine is the whole of its request. *)
Lemma serve_rejected (handler : M unit) (tr : list event) :
  exec handler = Some tr -> spawned tr = [] -> serve b handler = Some tr.
Proof.
  intros Hexec Hs. unfold serve. rewrite Hexec, Hs. simpl.
  now rewrite app_nil_r.
Qed.

End HandlerFacts.

(** ** The news gateway *)

Section Gateway.

Variable Time : Type.
Variable formatLocal : Time -> string.
Variable TopNStories :
  string -> string -> Z -> list (nyttop.Article Time) * option nyttop.error.
Variable Sections : string -> option string.

Abbreviation gateway := (NYTimes_NewsSource Time formatLocal TopNStories Sections).

(** The loop of [TopStories] is a filter followed by a map. *)
Lemma NYTimes_TopStories_Ok (nyt : NYTimes) (section : string) (topN : Z)
      (items : list (nyttop.Article Time)) :
  TopNStories (APIKey nyt) section topN = (items, None) ->
  NYTimes_TopStories Time formatLocal TopNStories nyt section topN
  = Ok (map (toArticle Time formatLocal) (filter (hasTitleAndLink Time) items)).
Proof.
  intros Hup. unfold NYTimes_TopStories. rewrite Hup.
  rewrite (fold_left_append_unless
             (fun a => String.eqb (nyttop.Title a) "" || String.eqb (nyttop.ShortURL a) "")
             (toArticle Time formatLocal)).
  reflexivity.
Qed.

(** An upstream error reaches the bot as [ErrInvalidSection] exactly when it
    is the client's own invalid-section error. *)
Lemma NYTimes_TopStories_Err (nyt : NYTimes) (section : string) (topN : Z)
      (items : list (nyttop.Article Time)) (e : nyttop.error) :
  TopNStories (APIKey nyt) section topN = (items, Some e) ->
  exists err,
    NYTimes_TopStories Time formatLocal TopNStories nyt section topN = Err err /\
    (err = ErrInvalidSection <-> e = nyttop.ErrInvalidSection).
Proof.
  intros Hup. unfold NYTimes_TopStories. rewrite Hup.
  destruct e as [|msg].
  - exists ErrInvalidSection. now repeat split.
  - exists (ErrNyttop (nyttop.ErrOther msg)). repeat split; discriminate.
Qed.

Lemma hasTitleAndLink_true (a : nyttop.Article Time) :
  hasTitleAndLink Time a = true <-> nyttop.Title a <> "" /\ nyttop.ShortURL a <> "".
Proof.
  unfold hasTitleAndLink.
  rewrite negb_true_iff, orb_false_iff, !String.eqb_neq. reflexivity.
Qed.

(** C3.  When the upstream answers with [items], [TopStories] returns the
    items that have a title and a link, converted, in the upstream order;
    an item whose title or link is empty is not among them, every returned
    article has a title and a link, and the message the bot posts is the
    header followed by the blocks of the returned articles only. *)
Theorem TopStories_drops_incomplete_items
        (nyt : NYTimes) (section : string) (topN : Z)
        (items : list (nyttop.Article Time)) :
  TopNStories (APIKey nyt) section topN = (items, None) ->
  exists result,
    @TopStories NYTimes gateway nyt section topN = Ok result /\
    result = map (toArticle Time formatLocal) (filter (hasTitleAndLink Time) items) /\
    Forall (fun a => Title a <> "" /\ URL a <> "") result /\
    (forall a, In a items ->
               nyttop.Title a = "" \/ nyttop.ShortURL a = "" ->
               ~ In a (filter (hasTitleAndLink Time) items)) /\
    (forall (b : Bot NYTimes) (channelID responseURL params : string),
        newsSource b = nyt -> requestedSection params = section -> topN = 3 ->
        exists tr,
          exec (@handleTopRequest NYTimes gateway b channelID responseURL params)
          = Some tr /\
          postedBlocks tr = topStoriesHeader :: flat_map articleBlocks result).
Proof.
  intros Hup.
  exists (map (toArticle Time formatLocal) (filter (hasTitleAndLink Time) items)).
  assert (Hok := NYTimes_TopStories_Ok nyt section topN items Hup).
  split; [exact Hok|]. split; [reflexivity|]. split; [|split].
  - apply Forall_forall. intros a Ha.
    apply in_map_iff in Ha. destruct Ha as [item [<- Hitem]].
    apply filter_In in Hitem. destruct Hitem as [_ Hkeep].
    apply hasTitleAndLink_true in Hkeep. exact Hkeep.
  - intros a _ Hmissing Hkept.
    apply filter_In in Hkept. destruct Hkept as [_ Hkeep].
    apply hasTitleAndLink_true in Hkeep. tauto.
  - intros b channelID responseURL params Hb Hsection HtopN. subst nyt section topN.
    assert (Hfetch : @TopStories NYTimes gateway (newsSource b) (requestedSection params) 3
                     = Ok (map (toArticle Time formatLocal)
                               (filter (hasTitleAndLink Time) items)))
      by exact Hok.
    eexists. split.
    + apply (@exec_handleTopRequest_Ok NYTimes gateway b channelID responseURL params
               _ Hfetch).
    + unfold postedBlocks.
      rewrite posts_app, (proj1 (proj2 (deliveryLog_quiet b channelID _))).
      simpl. now rewrite !app_nil_r.
Qed.

End Gateway.

(** From here on the test news source is the instance for [NYTimes]. *)
#[local] Existing Instance Fixture.source.

(** A run of [TopStories_drops_incomplete_items]: of the three items of the
    test upstream, the second, which has no title, is dropped. *)
Lemma TopStories_drops_incomplete_items_witness :
  exists result,
    TopStories (NewNYTimes "key") "arts" 3 = Ok result /\
    map Title result = ["First"; "Third"] /\
    Forall (fun a => Title a <> "" /\ URL a <> "") result /\
    exists tr,
      exec (handleTopRequest Fixture.bot "C1" "https://hooks/response" " arts") = Some tr /\
      map blockText (postedBlocks tr)
      = [ "Here are the top stories 🗞";
          "<https://nyti.ms/1|First>" +++ String "010" "One"; "";
          "<https://nyti.ms/3|Third>" +++ String "010" "Three"; "" ].
Proof.
  destruct (TopStories_drops_incomplete_items Z Fixture.formatLocal Fixture.TopNStories
              Fixture.Sections (NewNYTimes "key") "arts" 3 _ eq_refl)
    as [result [Hok [Hresult [Hcomplete [_ Hrender]]]]].
  exists result. split; [exact Hok|]. split; [|split; [exact Hcomplete|]].
  - rewrite Hresult. reflexivity.
  - destruct (Hrender Fixture.bot "C1" "https://hooks/response" " arts"
                      eq_refl eq_refl eq_refl)
      as [tr [Hexec Hblocks]].
    exists tr. split; [exact Hexec|].
    rewrite Hblocks, Hresult. reflexivity.
Defined.

(** The earlier revision of [TopStories] did no validation: on the same
    upstream answer it returns the item without a title too. *)
Lemma NYTimes_TopStories_rev0_keeps_all :
  option_map (map Title)
    (match NYTimes_TopStories_rev0 Z Fixture.TopNStories (NewNYTimes "key") "arts" 3 with
     | Ok result => Some result
     | Err _ => None
     end)
  = Some ["First"; ""; "Third"].
Proof. reflexivity. Qed.

(** ** The command router *)

Section Router.

Context {T : Type} `{NewsSource T}.
Variable b : Bot T.
Variable Request : Type.
Variable SlashCommandParse : Request -> result slack.SlashCommand.
Variable ToLower : string -> string.

Lemma requestedSection_eq (params : string) :
  requestedSection params
  = if String.eqb (strings.Trim params " ") "" then "home" else strings.Trim params " ".
Proof. unfold requestedSection. now rewrite length_zero. Qed.

(** C1, as the code has it.  An accepted slash command is acknowledged with
    200 and its text, in lower case, goes to one goroutine.  When that text
    starts with "stories", the goroutine is the top-stories path on the
    remainder: the news source is asked once, for three stories of the
    remainder without its leading and trailing space characters (U+0020
    only: a tab or a line feed stays), or of "home" when nothing is left.
    For every other text the goroutine is the help path, which asks the news
    source nothing and posts the menu. *)
Theorem slash_command_routing (r : Request) (s : slack.SlashCommand) :
  SlashCommandParse r = Ok s ->
  slack.scToken s = slackVerificationToken b ->
  slack.Command s = "/news" ->
  exists tr,
    serve b (HandleSlashCommand Request SlashCommandParse ToLower b r)
    = Some (EvWriteHeader 200
            :: EvGo (GoProcessCommand (slack.scChannelID s) (slack.scResponseURL s)
                                      (ToLower (slack.Text s)))
            :: tr) /\
    if strings.HasPrefix (ToLower (slack.Text s)) "stories" then
      exists rest l r',
        ToLower (slack.Text s) = "stories" +++ rest /\
        rest = l +++ strings.Trim rest " " +++ r' /\
        strings.allIn " " l = true /\
        strings.allIn " " r' = true /\
        strings.first (strings.Trim rest " ") <> Some " "%char /\
        strings.last (strings.Trim rest " ") <> Some " "%char /\
        exec (handleTopRequest b (slack.scChannelID s) (slack.scResponseURL s) rest)
        = Some tr /\
        fetches tr
        = [ (if String.eqb (strings.Trim rest " ") ""
             then "home" else strings.Trim rest " ", 3) ]
    else
      exec (handleHelpRequest b (slack.scChannelID s) (slack.scResponseURL s))
      = Some tr /\
      fetches tr = [] /\
      exists options,
        posts tr = [(slack.scChannelID s, options)] /\
        flat_map optionValues (blocksOf options) = ["home"; "arts"; "politics"].
Proof.
  intros Hparse Htoken Hcommand.
  unfold serve.
  rewrite (exec_HandleSlashCommand_accepted b Request SlashCommandParse ToLower
             r s Hparse Htoken Hcommand).
  simpl spawned. simpl runTasks.
  destruct (strings.HasPrefix (ToLower (slack.Text s)) "stories") eqn:Hprefix.
  - destruct (proj1 (HasPrefix_true _ _) Hprefix) as [rest Hrest].
    rewrite Hrest, exec_processCommand_stories.
    destruct (handleTopRequest_trace b (slack.scChannelID s) (slack.scResponseURL s) rest)
      as [tr [options [Hexec [Hfetch _]]]].
    rewrite Hexec. exists tr. rewrite app_nil_r. split; [reflexivity|].
    destruct (Trim_spec " " rest) as [l [r' [Hsplit [Hl [Hr [Hfirst Hlast]]]]]].
    exists rest, l, r'. repeat split; trivial.
    + intros Hc. specialize (Hfirst _ Hc). discriminate.
    + intros Hc. specialize (Hlast _ Hc). discriminate.
    + now rewrite Hfetch, requestedSection_eq.
  - rewrite (exec_processCommand_other b _ _ _ Hprefix).
    destruct (handleHelpRequest_trace b (slack.scChannelID s) (slack.scResponseURL s))
      as [tr [options [Hexec [Hfetch [_ [Hposts [_ [_ [_ Hvalues]]]]]]]]].
    rewrite Hexec. exists tr. rewrite app_nil_r. split; [reflexivity|].
    repeat split; trivial. now exists options.
Qed.

(** C2, as the code has it.  When the remainder after "stories" is empty or
    holds space characters (U+0020) only, the news source is asked for
    "home". *)
Theorem blank_section_is_home (channelID responseURL rest : string) :
  strings.allIn " " rest = true ->
  exists tr,
    exec (processCommand b channelID responseURL ("stories" +++ rest)) = Some tr /\
    fetches tr = [("home", 3)].
Proof.
  intros Hblank. rewrite exec_processCommand_stories.
  destruct (handleTopRequest_trace b channelID responseURL rest)
    as [tr [options [Hexec [Hfetch _]]]].
  exists tr. split; [exact Hexec|].
  now rewrite Hfetch, requestedSection_eq, (Trim_allIn " " rest Hblank).
Qed.

End Router.

(** A run of [slash_command_routing]: the text "Stories  Arts " asks for
    "arts". *)
Lemma slash_command_routing_witness :
  exists tr,
    serve Fixture.bot
          (Fixture.slashHandler (Fixture.slashRequest "secret" "/news" "Stories  Arts "))
    = Some (EvWriteHeader 200
            :: EvGo (GoProcessCommand "C1" "https://hooks/response" "stories  arts ")
            :: tr) /\
    fetches tr = [("arts", 3)].
Proof.
  destruct (slash_command_routing Fixture.bot Fixture.Request Fixture.SlashCommandParse
              Fixture.ToLower
              (Fixture.slashRequest "secret" "/news" "Stories  Arts ")
              {| slack.scToken := "secret"; slack.Command := "/news";
                 slack.Text := "Stories  Arts ";
                 slack.scResponseURL := "https://hooks/response";
                 slack.scChannelID := "C1" |}
              eq_refl eq_refl eq_refl)
    as [tr [Hserve Hroute]].
  exists tr. split; [exact Hserve|].
  simpl in Hroute.
  destruct Hroute as [rest [l [r' [Hrest [_ [_ [_ [_ [_ [_ Hfetch]]]]]]]]]].
  injection Hrest as <-. exact Hfetch.
Defined.

(** C1 fails as written: a tab after "stories" is whitespace, yet it is not
    trimmed, and the news source is asked for the tab followed by "arts". *)
Lemma routing_keeps_tab :
  strings.HasPrefix ("stories" +++ Fixture.tab +++ "arts") "stories" = true /\
  strings.TrimSpace (Fixture.tab +++ "arts") = "arts" /\
  option_map fetches
    (exec (processCommand Fixture.bot "C1" "https://hooks/response"
                          ("stories" +++ Fixture.tab +++ "arts")))
  = Some [(Fixture.tab +++ "arts", 3)] /\
  option_map fetches
    (exec (processCommand Fixture.bot "C1" "https://hooks/response"
                          ("stories" +++ Fixture.tab +++ "arts")))
  <> Some [(strings.TrimSpace (Fixture.tab +++ "arts"), 3)].
Proof.
  repeat split; try reflexivity. vm_compute. discriminate.
Qed.

(** A run of [blank_section_is_home]: three spaces after "stories". *)
Lemma blank_section_is_home_witness :
  strings.allIn " " "   " = true /\
  exists tr,
    exec (processCommand Fixture.bot "C1" "https://hooks/response" ("stories" +++ "   "))
    = Some tr /\
    fetches tr = [("home", 3)].
Proof.
  split; [reflexivity|].
  apply (blank_section_is_home Fixture.bot "C1" "https://hooks/response" "   ").
  reflexivity.
Defined.

(** C2 fails as written: a remainder that is a single tab is whitespace
    only, yet the news source is asked for the tab, not for "home". *)
Lemma tab_section_is_not_home :
  strings.allIn strings.asciiSpace Fixture.tab = true /\
  strings.TrimSpace Fixture.tab = "" /\
  option_map fetches
    (exec (processCommand Fixture.bot "C1" "https://hooks/response"
                          ("stories" +++ Fixture.tab)))
  = Some [(Fixture.tab, 3)] /\
  option_map fetches
    (exec (processCommand Fixture.bot "C1" "https://hooks/response"
                          ("stories" +++ Fixture.tab)))
  <> Some [("home", 3)].
Proof.
  repeat split; try reflexivity. vm_compute. discriminate.
Qed.

(** ** The top-stories message and the error messages *)

Section TopRequest.

Context {T : Type} `{NewsSource T}.
Variable b : Bot T.

Lemma kinds_of_articleBlocks (articles : list Article) :
  map kindOf (flat_map articleBlocks articles)
  = flat_map (fun _ => [Content; Divider]) articles.
Proof.
  induction articles as [|a articles IH]; simpl; [reflexivity|].
  now rewrite IH.
Qed.

Lemma length_articleBlocks (articles : list Article) :
  List.length (flat_map articleBlocks articles) = (2 * List.length articles)%nat.
Proof.
  induction articles as [|a articles IH]; simpl; [reflexivity|].
  rewrite IH. lia.
Qed.

(** C4.  When the news source answers with [articles], the bot posts one
    message whose blocks are the header and then, for each article in
    order, its content block and a divider: 1 + 2k blocks for k articles,
    and the header alone for none. *)
Theorem top_stories_blocks (channelID responseURL params : string)
        (articles : list Article) :
  TopStories (newsSource b) (requestedSection params) 3 = Ok articles ->
  exists tr options,
    exec (handleTopRequest b channelID responseURL params) = Some tr /\
    posts tr = [(channelID, options)] /\
    blocksOf options = topStoriesHeader :: flat_map articleBlocks articles /\
    map kindOf (blocksOf options)
    = Header :: flat_map (fun _ => [Content; Divider]) articles /\
    List.length (blocksOf options) = (1 + 2 * List.length articles)%nat /\
    (articles = [] -> map kindOf (blocksOf options) = [Header]).
Proof.
  intros Hfetch. eexists. eexists.
  rewrite (exec_handleTopRequest_Ok b channelID responseURL params articles Hfetch).
  split; [reflexivity|].
  rewrite posts_app, (proj1 (proj2 (deliveryLog_quiet b channelID _))).
  split; [reflexivity|]. simpl blocksOf. rewrite app_nil_r.
  split; [reflexivity|]. split; [|split].
  - simpl. now rewrite kinds_of_articleBlocks.
  - simpl. now rewrite length_articleBlocks.
  - intros ->. reflexivity.
Qed.

(** C5.  When the news source fails, the bot posts one message, ephemeral,
    to the response URL, with no block and one text: the invalid-section
    text when the error is [ErrInvalidSection], and only then; the retry
    text for every other error. *)
Theorem fetch_error_message (channelID responseURL params : string) (err : error) :
  TopStories (newsSource b) (requestedSection params) 3 = Err err ->
  exists tr options,
    exec (handleTopRequest b channelID responseURL params) = Some tr /\
    posts tr = [(channelID, options)] /\
    isEphemeral options = true /\
    responseURLOf options = Some responseURL /\
    blocksOf options = [] /\
    (err = ErrInvalidSection ->
     textsOf options
     = ["⚠️ That's not a valid news section! Try requesting `/news help` to learn how to use this app!"]) /\
    (err <> ErrInvalidSection ->
     textsOf options
     = ["⚠️ Oops, something went wrong on our side. Try again later!"]) /\
    (textsOf options = [invalidSectionMessage] <-> err = ErrInvalidSection).
Proof.
  intros Hfetch. eexists. eexists.
  rewrite (exec_handleTopRequest_Err b channelID responseURL params err Hfetch).
  split; [reflexivity|].
  rewrite posts_app, (proj1 (proj2 (deliveryLog_quiet b channelID _))).
  split; [reflexivity|].
  repeat split.
  - intros ->. reflexivity.
  - intros Hother. destruct err; [contradiction | reflexivity | reflexivity].
  - destruct err; [reflexivity | discriminate | discriminate].
  - intros ->. reflexivity.
Qed.

(** C10.  The values the help menu offers are "home", "arts" and
    "politics", and each is one of the supported sections of the New York
    Times gateway. *)
Theorem help_menu_values_are_supported (channelID responseURL : string)
        (nyt : NYTimes) :
  exists tr,
    exec (handleHelpRequest b channelID responseURL) = Some tr /\
    flat_map optionValues (postedBlocks tr) = ["home"; "arts"; "politics"] /\
    Forall (fun v => In v (NYTimes_SupportedSections nyt))
           (flat_map optionValues (postedBlocks tr)).
Proof.
  destruct (handleHelpRequest_trace b channelID responseURL)
    as [tr [options [Hexec [_ [_ [Hposts [_ [_ [_ Hvalues]]]]]]]]].
  exists tr. split; [exact Hexec|].
  unfold postedBlocks. rewrite Hposts. simpl. rewrite app_nil_r, Hvalues.
  split; [reflexivity|].
  repeat constructor; simpl; tauto.
Qed.

End TopRequest.

(** A run of [top_stories_blocks]: the two complete articles of the test
    upstream give five blocks. *)
Lemma top_stories_blocks_witness :
  exists tr options,
    exec (handleTopRequest Fixture.bot "C1" "https://hooks/response" "arts") = Some tr /\
    posts tr = [("C1", options)] /\
    map kindOf (blocksOf options) = [Header; Content; Divider; Content; Divider].
Proof.
  assert (Hfetch : TopStories (newsSource Fixture.bot) (requestedSection "arts") 3
                   = Ok Fixture.stories) by (vm_compute; reflexivity).
  destruct (top_stories_blocks Fixture.bot "C1" "https://hooks/response" "arts"
              Fixture.stories Hfetch)
    as [tr [options [Hexec [Hposts [_ [Hkinds _]]]]]].
  exists tr, options. split; [exact Hexec|]. split; [exact Hposts|]. exact Hkinds.
Defined.

(** Two runs of [fetch_error_message]: an unknown section, and an upstream
    that is down. *)
Lemma fetch_error_message_witness :
  (exists tr options,
      exec (handleTopRequest Fixture.bot "C1" "https://hooks/response" "sports") = Some tr /\
      posts tr = [("C1", options)] /\
      textsOf options = [invalidSectionMessage]) /\
  (exists tr options,
      exec (handleTopRequest Fixture.bot "C1" "https://hooks/response" "down") = Some tr /\
      posts tr = [("C1", options)] /\
      textsOf options = [retryMessage]).
Proof.
  split.
  - assert (Hfetch : TopStories (newsSource Fixture.bot) (requestedSection "sports") 3
                     = Err ErrInvalidSection) by (vm_compute; reflexivity).
    destruct (fetch_error_message Fixture.bot "C1" "https://hooks/response" "sports"
                ErrInvalidSection Hfetch)
      as [tr [options [Hexec [Hposts [_ [_ [_ [Hinvalid _]]]]]]]].
    exists tr, options. split; [exact Hexec|]. split; [exact Hposts|].
    exact (Hinvalid eq_refl).
  - assert (Hfetch : TopStories (newsSource Fixture.bot) (requestedSection "down") 3
                     = Err (ErrNyttop (nyttop.ErrOther "503")))
      by (vm_compute; reflexivity).
    destruct (fetch_error_message Fixture.bot "C1" "https://hooks/response" "down"
                (ErrNyttop (nyttop.ErrOther "503")) Hfetch)
      as [tr [options [Hexec [Hposts [_ [_ [_ [_ [Hother _]]]]]]]]].
    exists tr, options. split; [exact Hexec|]. split; [exact Hposts|].
    apply Hother. discriminate.
Defined.

(** ** The two endpoints *)

Section Endpoints.

Context {T : Type} `{NewsSource T}.
Variable b : Bot T.
Variable Request : Type.
Variable SlashCommandParse : Request -> result slack.SlashCommand.
Variable ParseForm : Request -> result http.Values.
Variable Unmarshal : string -> result slack.InteractionCallback.
Variable ToLower : string -> string.

Abbreviation HandleSlash := (HandleSlashCommand Request SlashCommandParse ToLower b).
Abbreviation HandleHelp := (HandleHelpInteraction Request ParseForm Unmarshal b).

(** The observers of the response at work: the handler of "/" answers 200
    with a body. *)
Lemma helloWorld_response :
  option_map (fun tr => (statusOf tr, bodyOf tr)) (exec helloWorld)
  = Some (200, "Hello world!").
Proof. reflexivity. Qed.

(** C6.  Both handlers end, write nothing to the body, and answer with the
    status of the first check that fails, in the order of the code.  On
    /receive: 500 when the body does not parse, else 401 when the token is
    not the configured one, else 400 when the command is not "/news", else
    200.  On /receive/help: 400 when the form or its payload does not
    parse, else 401 when the token is not the configured one, else 400 when
    the number of actions is not 1, else 200. *)
Theorem status_codes (r : Request) :
  (exists tr,
      exec (HandleSlash r) = Some tr /\
      bodyOf tr = "" /\
      statusOf tr
      = match SlashCommandParse r with
        | Err _ => 500
        | Ok s =>
            if negb (String.eqb (slack.scToken s) (slackVerificationToken b)) then 401
            else if negb (String.eqb (slack.Command s) "/news") then 400
            else 200
        end) /\
  (exists tr,
      exec (HandleHelp r) = Some tr /\
      bodyOf tr = "" /\
      statusOf tr
      = match ParseForm r with
        | Err _ => 400
        | Ok form =>
            match Unmarshal (http.Get form "payload") with
            | Err _ => 400
            | Ok interaction =>
                if negb (String.eqb (slack.Token interaction) (slackVerificationToken b))
                then 401
                else if negb (List.length (slack.BlockActions
                                             (slack.ActionCallback interaction)) =? 1)%nat
                     then 400
                     else 200
            end
        end).
Proof.
  split.
  - unfold exec, HandleSlashCommand.
    destruct (SlashCommandParse r) as [s | err].
    + rewrite ValidateToken_one.
      destruct (negb (String.eqb (slack.scToken s) (slackVerificationToken b))).
      * eexists. split; [reflexivity|]. split; reflexivity.
      * destruct (negb (String.eqb (slack.Command s) "/news"));
          eexists; (split; [reflexivity|]); split; reflexivity.
    + eexists. split; [reflexivity|]. split; reflexivity.
  - unfold exec, HandleHelpInteraction.
    destruct (ParseForm r) as [form | err].
    + destruct (Unmarshal (http.Get form "payload")) as [interaction | err].
      * destruct (negb (String.eqb (slack.Token interaction) (slackVerificationToken b))).
        -- eexists. split; [reflexivity|]. split; reflexivity.
        -- destruct (slack.BlockActions (slack.ActionCallback interaction))
             as [|action [|action' actions]];
             eexists; (split; [reflexivity|]); split; reflexivity.
      * eexists. split; [reflexivity|]. split; reflexivity.
    + eexists. split; [reflexivity|]. split; reflexivity.
Qed.

(** C7.  A slash command or an interaction whose token is not the
    configured one, and an interaction with no action or with two or more,
    is answered with 401 or 400 and that is all: the request, goroutines
    included, starts no goroutine, calls the news source for nothing and
    posts no message; next to the status there is one log line. *)
Theorem rejected_requests_do_nothing (r : Request) :
  (forall s,
      SlashCommandParse r = Ok s ->
      slack.scToken s <> slackVerificationToken b ->
      exists tr,
        serve b (HandleSlash r) = Some tr /\
        spawned tr = [] /\ fetches tr = [] /\ posts tr = [] /\
        filter isEffect tr = [EvWriteHeader 401]) /\
  (forall form interaction,
      ParseForm r = Ok form ->
      Unmarshal (http.Get form "payload") = Ok interaction ->
      slack.Token interaction <> slackVerificationToken b ->
      exists tr,
        serve b (HandleHelp r) = Some tr /\
        spawned tr = [] /\ fetches tr = [] /\ posts tr = [] /\
        filter isEffect tr = [EvWriteHeader 401]) /\
  (forall form interaction,
      ParseForm r = Ok form ->
      Unmarshal (http.Get form "payload") = Ok interaction ->
      slack.Token interaction = slackVerificationToken b ->
      List.length (slack.BlockActions (slack.ActionCallback interaction)) <> 1%nat ->
      exists tr,
        serve b (HandleHelp r) = Some tr /\
        spawned tr = [] /\ fetches tr = [] /\ posts tr = [] /\
        filter isEffect tr = [EvWriteHeader 400]).
Proof.
  split; [|split].
  - intros s Hparse Htoken.
    eexists. split.
    + apply serve_rejected;
        [exact (exec_HandleSlashCommand_bad_token b Request SlashCommandParse ToLower
                  r s Hparse Htoken) | reflexivity].
    + repeat split.
  - intros form interaction Hform Hjson Htoken.
    eexists. split.
    + apply serve_rejected;
        [exact (exec_HandleHelpInteraction_bad_token b Request ParseForm Unmarshal
                  r form interaction Hform Hjson Htoken) | reflexivity].
    + repeat split.
  - intros form interaction Hform Hjson Htoken Hcount.
    eexists. split.
    + apply serve_rejected;
        [exact (exec_HandleHelpInteraction_bad_count b Request ParseForm Unmarshal
                  r form interaction Hform Hjson Htoken Hcount) | reflexivity].
    + repeat split.
Qed.

(** [handleTopRequest] looks at its text only through the section it asks
    for. *)
Lemma handleTopRequest_section (channelID responseURL params params' : string) :
  requestedSection params = requestedSection params' ->
  handleTopRequest b channelID responseURL params
  = handleTopRequest b channelID responseURL params'.
Proof.
  unfold requestedSection, handleTopRequest. cbv zeta.
  intros Hsection. rewrite Hsection. reflexivity.
Qed.

(** C8.  The goroutine of an accepted interaction is [handleTopRequest] on
    the selected value; the goroutine of an accepted slash command whose
    lower-case text is "stories" followed by [rest] runs as
    [handleTopRequest] on [rest].  With the same channel and response URL,
    whenever the text routes to the section of the selected value (the
    remainder and the value give the same requested section: equal up to
    surrounding spaces, or one empty or blank and the other "home"), the
    two goroutines leave the same trace: same call on the news source, for
    that section, same message, same delivery. *)
Theorem interaction_runs_the_text_path
        (rs rh : Request) (s : slack.SlashCommand) (form : http.Values)
        (interaction : slack.InteractionCallback) (action : slack.BlockAction)
        (rest : string) :
  SlashCommandParse rs = Ok s ->
  slack.scToken s = slackVerificationToken b ->
  slack.Command s = "/news" ->
  ToLower (slack.Text s) = "stories" +++ rest ->
  ParseForm rh = Ok form ->
  Unmarshal (http.Get form "payload") = Ok interaction ->
  slack.Token interaction = slackVerificationToken b ->
  slack.BlockActions (slack.ActionCallback interaction) = [action] ->
  slack.scChannelID s = slack.ChannelID (slack.icContainer interaction) ->
  slack.scResponseURL s = slack.ResponseURL interaction ->
  requestedSection rest = requestedSection (slack.optValue (slack.SelectedOption action)) ->
  exists tslash thelp tr,
    option_map spawned (exec (HandleSlash rs)) = Some [tslash] /\
    option_map spawned (exec (HandleHelp rh)) = Some [thelp] /\
    thelp = GoHandleTopRequest (slack.ChannelID (slack.icContainer interaction))
                               (slack.ResponseURL interaction)
                               (slack.optValue (slack.SelectedOption action)) /\
    exec (runTask b tslash) = Some tr /\
    exec (runTask b thelp) = Some tr /\
    exec (handleTopRequest b (slack.scChannelID s) (slack.scResponseURL s) rest)
    = Some tr /\
    fetches tr = [(requestedSection (slack.optValue (slack.SelectedOption action)), 3)].
Proof.
  intros Hparse Htoken Hcommand Htext Hform Hjson Htoken' Hactions Hchannel Hurl Hsection.
  rewrite (exec_HandleSlashCommand_accepted b Request SlashCommandParse ToLower
             rs s Hparse Htoken Hcommand).
  rewrite (exec_HandleHelpInteraction_accepted b Request ParseForm Unmarshal
             rh form interaction action Hform Hjson Htoken' Hactions).
  destruct (handleTopRequest_trace b (slack.scChannelID s) (slack.scResponseURL s) rest)
    as [tr [options [Hexec [Hfetch _]]]].
  eexists. eexists. exists tr.
  split; [reflexivity|]. split; [reflexivity|]. split; [reflexivity|].
  simpl runTask. rewrite Htext, exec_processCommand_stories.
  split; [exact Hexec|]. split; [|split; [exact Hexec|]].
  - rewrite <- Hchannel, <- Hurl, <- Hexec.
    now rewrite (handleTopRequest_section _ _ _ _ Hsection).
  - now rewrite Hfetch, Hsection.
Qed.

(** C9.  Whatever the request, on either endpoint, the request runs to its
    end and every message in its trace, goroutines included, is posted to
    a response URL with the ephemeral response type. *)
Theorem every_message_is_ephemeral (r : Request) :
  (exists tr, serve b (HandleSlash r) = Some tr /\ allEphemeral tr = true) /\
  (exists tr, serve b (HandleHelp r) = Some tr /\ allEphemeral tr = true).
Proof.
  assert (Hserve : forall handler tr,
             exec handler = Some tr -> posts tr = [] ->
             exists tr', serve b handler = Some tr' /\ allEphemeral tr' = true).
  { intros handler tr Hexec Hposts. unfold serve. rewrite Hexec.
    destruct (runTasks_trace b (spawned tr)) as [tr' [Hrun [_ [_ He]]]].
    rewrite Hrun. exists (tr ++ tr'). split; [reflexivity|].
    rewrite allEphemeral_app, He. unfold allEphemeral. now rewrite Hposts. }
  split.
  - destruct (HandleSlashCommand_trace b Request SlashCommandParse ToLower r)
      as [tr [Hexec [Hposts _]]].
    exact (Hserve _ tr Hexec Hposts).
  - destruct (HandleHelpInteraction_trace b Request ParseForm Unmarshal r)
      as [tr [Hexec [Hposts _]]].
    exact (Hserve _ tr Hexec Hposts).
Qed.

End Endpoints.

(** Three runs of [rejected_requests_do_nothing]: a slash command and an
    interaction with a wrong token, and an interaction with two actions. *)
Lemma rejected_requests_do_nothing_witness :
  (exists tr,
      serve Fixture.bot (Fixture.slashHandler (Fixture.slashRequest "guess" "/news" "stories"))
      = Some tr /\
      spawned tr = [] /\ fetches tr = [] /\ posts tr = [] /\
      filter isEffect tr = [EvWriteHeader 401]) /\
  (exists tr,
      serve Fixture.bot (Fixture.helpHandler (Fixture.helpRequest "guess,arts")) = Some tr /\
      spawned tr = [] /\ fetches tr = [] /\ posts tr = [] /\
      filter isEffect tr = [EvWriteHeader 401]) /\
  (exists tr,
      serve Fixture.bot (Fixture.helpHandler (Fixture.helpRequest "secret,arts,home"))
      = Some tr /\
      spawned tr = [] /\ fetches tr = [] /\ posts tr = [] /\
      filter isEffect tr = [EvWriteHeader 400]).
Proof.
  split; [|split].
  - refine (proj1 (rejected_requests_do_nothing Fixture.bot Fixture.Request
                     Fixture.SlashCommandParse Fixture.ParseForm Fixture.Unmarshal
                     Fixture.ToLower
                     (Fixture.slashRequest "guess" "/news" "stories"))
                  _ eq_refl _).
    simpl. discriminate.
  - refine (proj1 (proj2 (rejected_requests_do_nothing Fixture.bot Fixture.Request
                            Fixture.SlashCommandParse Fixture.ParseForm Fixture.Unmarshal
                            Fixture.ToLower (Fixture.helpRequest "guess,arts")))
                  _ _ eq_refl eq_refl _).
    simpl. discriminate.
  - refine (proj2 (proj2 (rejected_requests_do_nothing Fixture.bot Fixture.Request
                            Fixture.SlashCommandParse Fixture.ParseForm Fixture.Unmarshal
                            Fixture.ToLower (Fixture.helpRequest "secret,arts,home")))
                  _ _ eq_refl eq_refl eq_refl _).
    simpl. discriminate.
Defined.

(** Two runs of [interaction_runs_the_text_path]: the text "Stories arts"
    and the menu value "arts" leave the same trace, and so do the bare text
    "Stories" and the menu value "home". *)
Lemma interaction_runs_the_text_path_witness :
  (exists tr,
      exec (runTask Fixture.bot
              (GoProcessCommand "C1" "https://hooks/response" "stories arts")) = Some tr /\
      exec (runTask Fixture.bot
              (GoHandleTopRequest "C1" "https://hooks/response" "arts")) = Some tr /\
      fetches tr = [("arts", 3)]) /\
  (exists tr,
      exec (runTask Fixture.bot
              (GoProcessCommand "C1" "https://hooks/response" "stories")) = Some tr /\
      exec (runTask Fixture.bot
              (GoHandleTopRequest "C1" "https://hooks/response" "home")) = Some tr /\
      fetches tr = [("home", 3)]).
Proof.
  split.
  - destruct (interaction_runs_the_text_path Fixture.bot Fixture.Request
                Fixture.SlashCommandParse Fixture.ParseForm Fixture.Unmarshal
                Fixture.ToLower
                (Fixture.slashRequest "secret" "/news" "Stories arts")
                (Fixture.helpRequest "secret,arts")
                _ _ _
                {| slack.SelectedOption :=
                     {| slack.optText := None; slack.optValue := "arts" |} |}
                " arts"
                eq_refl eq_refl eq_refl eq_refl eq_refl eq_refl eq_refl eq_refl
                eq_refl eq_refl eq_refl)
      as [tslash [thelp [tr [Hslash [Hhelp [Hthelp [Hrun [Hrun' [_ Hfetch]]]]]]]]].
    injection Hslash as <-. subst thelp.
    exists tr. split; [exact Hrun|]. split; [exact Hrun'|]. exact Hfetch.
  - destruct (interaction_runs_the_text_path Fixture.bot Fixture.Request
                Fixture.SlashCommandParse Fixture.ParseForm Fixture.Unmarshal
                Fixture.ToLower
                (Fixture.slashRequest "secret" "/news" "Stories")
                (Fixture.helpRequest "secret,home")
                _ _ _
                {| slack.SelectedOption :=
                     {| slack.optText := None; slack.optValue := "home" |} |}
                ""
                eq_refl eq_refl eq_refl eq_refl eq_refl eq_refl eq_refl eq_refl
                eq_refl eq_refl eq_refl)
      as [tslash [thelp [tr [Hslash [Hhelp [Hthelp [Hrun [Hrun' [_ Hfetch]]]]]]]]].
    injection Hslash as <-. subst thelp.
    exists tr. split; [exact Hrun|]. split; [exact Hrun'|]. exact Hfetch.
Defined.

(** * Further properties of the code *)

(** ** Trimming and padding *)

Section TrimFacts.

Import strings.

Variable cutset : string.

Lemma TrimLeft_app_allIn (l s : string) :
  allIn cutset l = true -> TrimLeft (l +++ s) cutset = TrimLeft s cutset.
Proof.
  induction l as [|c l IH]; simpl; [reflexivity|].
  rewrite andb_true_iff. intros [-> Hl]. auto.
Qed.

Lemma TrimRight_app (l s : string) :
  TrimRight (l +++ s) cutset
  = match TrimRight s cutset with
    | EmptyString => TrimRight l cutset
    | t => l +++ t
    end.
Proof.
  induction l as [|c l IH]; simpl.
  - now destruct (TrimRight s cutset).
  - rewrite IH. destruct (TrimRight s cutset) as [|d t]; [reflexivity|].
    now destruct l.
Qed.

Lemma TrimRight_app_allIn (s r : string) :
  allIn cutset r = true -> TrimRight (s +++ r) cutset = TrimRight s cutset.
Proof.
  intros Hr. rewrite TrimRight_app, (TrimRight_allIn cutset r Hr). reflexivity.
Qed.

(** Cutset bytes around a string do not change what [Trim] makes of it. *)
Lemma Trim_padding (l s r : string) :
  allIn cutset l = true -> allIn cutset r = true ->
  Trim (l +++ s +++ r) cutset = Trim s cutset.
Proof.
  intros Hl Hr. unfold Trim.
  rewrite TrimRight_app, (TrimRight_app_allIn s r Hr).
  destruct (TrimRight s cutset) as [|d t].
  - now rewrite (TrimRight_allIn cutset l Hl).
  - now apply TrimLeft_app_allIn.
Qed.

(** A string that neither starts nor ends with a cutset byte is left as it
    is. *)
Lemma Trim_id (s : string) :
  (forall c, first s = Some c -> inCutset c cutset = false) ->
  (forall c, last s = Some c -> inCutset c cutset = false) ->
  Trim s cutset = s.
Proof.
  intros Hfirst Hlast. unfold Trim.
  rewrite (TrimRight_id cutset s Hlast). now apply TrimLeft_id.
Qed.

End TrimFacts.

Lemma not_space (o : option ascii) :
  o <> Some " "%char -> forall c, o = Some c -> strings.inCutset c " " = false.
Proof.
  intros Ho c ->. simpl. rewrite orb_false_r.
  apply Ascii.eqb_neq. intros ->. now apply Ho.
Qed.

(** ** More on the router *)

Section RouterPadding.

Context {T : Type} `{NewsSource T}.
Variable b : Bot T.

(** The section asked for when the remainder is a section between spaces. *)
Lemma requestedSection_padded (l section r : string) :
  strings.allIn " " l = true -> strings.allIn " " r = true ->
  section <> "" ->
  strings.first section <> Some " "%char ->
  strings.last section <> Some " "%char ->
  requestedSection (l +++ section +++ r) = section.
Proof.
  intros Hl Hr Hne Hfirst Hlast.
  rewrite requestedSection_eq, (Trim_padding " " l section r Hl Hr).
  rewrite (Trim_id " " section (not_space _ Hfirst) (not_space _ Hlast)).
  apply String.eqb_neq in Hne. now rewrite Hne.
Qed.

(** X1.  Space characters before and after the remainder of a "stories"
    command change nothing: the goroutine leaves the trace of the command
    without them. *)
Theorem router_ignores_space_padding (channelID responseURL l rest r : string) :
  strings.allIn " " l = true ->
  strings.allIn " " r = true ->
  exec (processCommand b channelID responseURL ("stories" +++ l +++ rest +++ r))
  = exec (processCommand b channelID responseURL ("stories" +++ rest)).
Proof.
  intros Hl Hr. rewrite !exec_processCommand_stories.
  unfold exec, handleTopRequest.
  now rewrite (Trim_padding " " l rest r Hl Hr).
Qed.

(** X2.  A section that is not empty and neither starts nor ends with a
    space is what the news source is asked for, bytes inside it untouched,
    whatever the number of spaces around it (none included). *)
Theorem section_round_trip (channelID responseURL l section r : string) :
  strings.allIn " " l = true ->
  strings.allIn " " r = true ->
  section <> "" ->
  strings.first section <> Some " "%char ->
  strings.last section <> Some " "%char ->
  exists tr,
    exec (processCommand b channelID responseURL ("stories" +++ l +++ section +++ r))
    = Some tr /\
    fetches tr = [(section, 3)].
Proof.
  intros Hl Hr Hne Hfirst Hlast. rewrite exec_processCommand_stories.
  destruct (handleTopRequest_trace b channelID responseURL (l +++ section +++ r))
    as [tr [options [Hexec [Hfetch _]]]].
  exists tr. split; [exact Hexec|].
  now rewrite Hfetch, (requestedSection_padded l section r Hl Hr Hne Hfirst Hlast).
Qed.

(** X12.  Each supported section of the New York Times gateway is asked for
    as it is on both paths: as the value of an interaction, and as the text
    "stories " followed by it. *)
Theorem supported_sections_are_fetched_as_is
        (channelID responseURL section : string) (nyt : NYTimes) :
  In section (NYTimes_SupportedSections nyt) ->
  (exists tr,
      exec (handleTopRequest b channelID responseURL section) = Some tr /\
      fetches tr = [(section, 3)]) /\
  (exists tr,
      exec (processCommand b channelID responseURL ("stories " +++ section)) = Some tr /\
      fetches tr = [(section, 3)]).
Proof.
  intros Hin.
  assert (Hsame : requestedSection section = section
                  /\ requestedSection (" " +++ section) = section).
  { simpl in Hin.
    repeat (destruct Hin as [<- | Hin]; [split; reflexivity|]).
    contradiction. }
  destruct Hsame as [Hvalue Htext]. split.
  - destruct (handleTopRequest_trace b channelID responseURL section)
      as [tr [options [Hexec [Hfetch _]]]].
    exists tr. split; [exact Hexec|]. now rewrite Hfetch, Hvalue.
  - change ("stories " +++ section) with ("stories" +++ (" " +++ section)).
    rewrite exec_processCommand_stories.
    destruct (handleTopRequest_trace b channelID responseURL (" " +++ section))
      as [tr [options [Hexec [Hfetch _]]]].
    exists tr. split; [exact Hexec|]. now rewrite Hfetch, Htext.
Qed.

End RouterPadding.

(** A run of [router_ignores_space_padding]. *)
Lemma router_ignores_space_padding_witness :
  exec (processCommand Fixture.bot "C1" "https://hooks/response"
                       ("stories" +++ "  " +++ "arts" +++ " "))
  = exec (processCommand Fixture.bot "C1" "https://hooks/response" ("stories" +++ "arts")).
Proof.
  apply (router_ignores_space_padding Fixture.bot "C1" "https://hooks/response"
           "  " "arts" " "); reflexivity.
Defined.

(** A run of [section_round_trip]: a section with a space inside. *)
Lemma section_round_trip_witness :
  exists tr,
    exec (processCommand Fixture.bot "C1" "https://hooks/response"
                         ("stories" +++ " " +++ "new york" +++ "  "))
    = Some tr /\
    fetches tr = [("new york", 3)].
Proof.
  apply (section_round_trip Fixture.bot "C1" "https://hooks/response"
           " " "new york" "  "); try reflexivity; discriminate.
Defined.

(** A run of [supported_sections_are_fetched_as_is]. *)
Lemma supported_sections_are_fetched_as_is_witness :
  (exists tr,
      exec (handleTopRequest Fixture.bot "C1" "https://hooks/response" "politics")
      = Some tr /\
      fetches tr = [("politics", 3)]) /\
  (exists tr,
      exec (processCommand Fixture.bot "C1" "https://hooks/response"
                           ("stories " +++ "politics")) = Some tr /\
      fetches tr = [("politics", 3)]).
Proof.
  apply (supported_sections_are_fetched_as_is Fixture.bot "C1" "https://hooks/response"
           "politics" (NewNYTimes "key")).
  simpl. tauto.
Defined.

(** ** More on the two endpoints *)

Section EndpointsMore.

Context {T : Type} `{NewsSource T}.
Variable b : Bot T.
Variable Request : Type.
Variable SlashCommandParse : Request -> result slack.SlashCommand.
Variable ParseForm : Request -> result http.Values.
Variable Unmarshal : string -> result slack.InteractionCallback.
Variable ToLower : string -> string.

Abbreviation HandleSlash := (HandleSlashCommand Request SlashCommandParse ToLower b).
Abbreviation HandleHelp := (HandleHelpInteraction Request ParseForm Unmarshal b).

(** What a run of [processCommand] leaves: one message, ephemeral, for the
    channel and the response URL it was given, and at most one call on the
    news source, for three stories. *)
Lemma processCommand_trace (channelID responseURL params : string) :
  exists tr options,
    exec (processCommand b channelID responseURL params) = Some tr /\
    spawned tr = [] /\
    posts tr = [(channelID, options)] /\
    isEphemeral options = true /\
    responseURLOf options = Some responseURL /\
    (List.length (fetches tr) <= 1)%nat /\
    Forall (fun f => snd f = 3) (fetches tr).
Proof.
  destruct (strings.HasPrefix params "stories") eqn:Hprefix.
  - apply HasPrefix_true in Hprefix. destruct Hprefix as [rest ->].
    rewrite exec_processCommand_stories.
    destruct (handleTopRequest_trace b channelID responseURL rest)
      as [tr [options [Hexec [Hf [Hs [Hp [He Hu]]]]]]].
    exists tr, options. rewrite Hf.
    do 5 (split; [assumption|]). split; [simpl; lia | repeat constructor].
  - rewrite (exec_processCommand_other b _ _ _ Hprefix).
    destruct (handleHelpRequest_trace b channelID responseURL)
      as [tr [options [Hexec [Hf [Hs [Hp [He [Hu _]]]]]]]].
    exists tr, options. rewrite Hf.
    do 5 (split; [assumption|]). split; [simpl; lia | constructor].
Qed.

(** X3.  An accepted slash command is answered with 200 and ends in
    exactly one message: ephemeral, for the channel of the command and
    posted to its response URL; the news source is called at most once,
    for three stories. *)
Theorem accepted_slash_command_delivery (r : Request) (s : slack.SlashCommand) :
  SlashCommandParse r = Ok s ->
  slack.scToken s = slackVerificationToken b ->
  slack.Command s = "/news" ->
  exists tr options,
    serve b (HandleSlash r) = Some tr /\
    statusOf tr = 200 /\
    bodyOf tr = "" /\
    List.length (spawned tr) = 1%nat /\
    posts tr = [(slack.scChannelID s, options)] /\
    isEphemeral options = true /\
    responseURLOf options = Some (slack.scResponseURL s) /\
    (List.length (fetches tr) <= 1)%nat /\
    Forall (fun f => snd f = 3) (fetches tr).
Proof.
  intros Hparse Htoken Hcommand. unfold serve.
  rewrite (exec_HandleSlashCommand_accepted b Request SlashCommandParse ToLower
             r s Hparse Htoken Hcommand).
  simpl spawned. simpl runTasks.
  destruct (processCommand_trace (slack.scChannelID s) (slack.scResponseURL s)
              (ToLower (slack.Text s)))
    as [tr [options [Hexec [Hs [Hp [He [Hu [Hn Hthree]]]]]]]].
  rewrite Hexec, app_nil_r. eexists. exists options.
  split; [reflexivity|]. simpl. rewrite Hs, Hp.
  assert (Hbody : bodyOf tr = "").
  { clear - Hs Hp Hexec. revert Hexec.
    destruct (strings.HasPrefix (ToLower (slack.Text s)) "stories") eqn:Hprefix.
    - apply HasPrefix_true in Hprefix. destruct Hprefix as [rest ->].
      rewrite exec_processCommand_stories.
      destruct (TopStories (newsSource b) (requestedSection rest) 3) eqn:Hfetch.
      + rewrite (exec_handleTopRequest_Ok b _ _ _ _ Hfetch). intros [= <-].
        unfold deliveryLog. now destruct (slack.PostMessage _ _ _).
      + rewrite (exec_handleTopRequest_Err b _ _ _ _ Hfetch). intros [= <-].
        unfold deliveryLog. now destruct (slack.PostMessage _ _ _).
    - rewrite (exec_processCommand_other b _ _ _ Hprefix).
      destruct (exec_handleHelpRequest b (slack.scChannelID s) (slack.scResponseURL s))
        as [options' [-> _]].
      intros [= <-]. unfold deliveryLog. now destruct (slack.PostMessage _ _ _). }
  split; [reflexivity|]. split; [exact Hbody|]. split; [reflexivity|].
  split; [reflexivity|]. split; [exact He|]. split; [exact Hu|].
  split; [exact Hn | exact Hthree].
Qed.

(** X4.  An accepted interaction is answered with 200 and ends in exactly
    one message, ephemeral, for the channel of the container and posted to
    the response URL of the interaction.  The news source is asked for the
    selected value without its surrounding spaces, in the case it came in,
    and for "home" when nothing is left of it. *)
Theorem accepted_interaction_delivery (r : Request) (form : http.Values)
        (interaction : slack.InteractionCallback) (action : slack.BlockAction) :
  ParseForm r = Ok form ->
  Unmarshal (http.Get form "payload") = Ok interaction ->
  slack.Token interaction = slackVerificationToken b ->
  slack.BlockActions (slack.ActionCallback interaction) = [action] ->
  exists tr options,
    serve b (HandleHelp r) = Some tr /\
    statusOf tr = 200 /\
    List.length (spawned tr) = 1%nat /\
    posts tr = [(slack.ChannelID (slack.icContainer interaction), options)] /\
    isEphemeral options = true /\
    responseURLOf options = Some (slack.ResponseURL interaction) /\
    fetches tr
    = [ (if String.eqb (strings.Trim (slack.optValue (slack.SelectedOption action)) " ") ""
         then "home"
         else strings.Trim (slack.optValue (slack.SelectedOption action)) " ", 3) ].
Proof.
  intros Hform Hjson Htoken Hactions. unfold serve.
  rewrite (exec_HandleHelpInteraction_accepted b Request ParseForm Unmarshal
             r form interaction action Hform Hjson Htoken Hactions).
  simpl spawned. simpl runTasks.
  destruct (handleTopRequest_trace b (slack.ChannelID (slack.icContainer interaction))
              (slack.ResponseURL interaction)
              (slack.optValue (slack.SelectedOption action)))
    as [tr [options [Hexec [Hf [Hs [Hp [He Hu]]]]]]].
  rewrite Hexec, app_nil_r. eexists. exists options.
  split; [reflexivity|]. simpl. rewrite Hs, Hp, Hf, requestedSection_eq.
  repeat split; trivial.
Qed.

(** X5.  On both endpoints the response is one [WriteHeader]: after at
    most one log line and before any goroutine.  A goroutine is started,
    one, exactly when the status is 200; every other status comes with one
    log line and no goroutine. *)
Theorem acknowledge_then_spawn (r : Request) :
  (exists logs code ts,
      exec (HandleSlash r) = Some (logs ++ EvWriteHeader code :: map EvGo ts) /\
      filter isEffect logs = [] /\
      ((code = 200 /\ logs = [] /\ List.length ts = 1%nat) \/
       (code <> 200 /\ List.length logs = 1%nat /\ ts = []))) /\
  (exists logs code ts,
      exec (HandleHelp r) = Some (logs ++ EvWriteHeader code :: map EvGo ts) /\
      filter isEffect logs = [] /\
      ((code = 200 /\ logs = [] /\ List.length ts = 1%nat) \/
       (code <> 200 /\ List.length logs = 1%nat /\ ts = []))).
Proof.
  split.
  - unfold exec, HandleSlashCommand.
    destruct (SlashCommandParse r) as [s | err].
    + destruct (negb (slack.ValidateToken s [slackVerificationToken b])).
      * exists [EvLog [LStr "invalid token"]], 401, [].
        repeat split. right. repeat split. discriminate.
      * destruct (negb (String.eqb (slack.Command s) "/news")).
        -- exists [EvLog [LStr "unexpected slash command:"; LStr (slack.Command s)]], 400, [].
           repeat split. right. repeat split. discriminate.
        -- exists [], 200,
             [GoProcessCommand (slack.scChannelID s) (slack.scResponseURL s)
                               (ToLower (slack.Text s))].
           repeat split. left. repeat split.
    + exists [EvLog [LStr "error parsing slash command:"; LErr err]], 500, [].
      repeat split. right. repeat split. discriminate.
  - unfold exec, HandleHelpInteraction.
    destruct (ParseForm r) as [form | err].
    + destruct (Unmarshal (http.Get form "payload")) as [interaction | err].
      * destruct (negb (String.eqb (slack.Token interaction) (slackVerificationToken b))).
        -- exists [EvLog [LStr "invalid token"]], 401, [].
           repeat split. right. repeat split. discriminate.
        -- destruct (slack.BlockActions (slack.ActionCallback interaction))
             as [|action [|action' actions]].
           ++ exists [EvLog [LStr "unexpected amount of actions received"]], 400, [].
              repeat split. right. repeat split. discriminate.
           ++ exists [], 200,
                [GoHandleTopRequest (slack.ChannelID (slack.icContainer interaction))
                                    (slack.ResponseURL interaction)
                                    (slack.optValue (slack.SelectedOption action))].
              repeat split. left. repeat split.
           ++ exists [EvLog [LStr "unexpected amount of actions received"]], 400, [].
              repeat split. right. repeat split. discriminate.
      * exists [EvLog [LStr "error parsing interactive request:"; LErr err]], 400, [].
        repeat split. right. repeat split. discriminate.
    + exists [EvLog [LStr "error parsing interactive request:"; LErr err]], 400, [].
      repeat split. right. repeat split. discriminate.
Qed.

(** X6.  A goroutine hands one message to the Slack client, once.  When
    the client answers with an error the goroutine logs it and ends: the
    message is not posted again, and nothing else follows. *)
Theorem delivery_is_attempted_once (t : Task) :
  exists before channelID options,
    exec (runTask b t)
    = Some (before
            ++ EvPostMessage channelID options
            :: match slack.PostMessage (slackClient b) channelID options with
               | Some err => [EvLog [LStr "error sending message:"; LErr err]]
               | None => []
               end) /\
    posts before = [].
Proof.
  assert (Htop : forall channelID responseURL params,
    exists before channelID' options,
      exec (handleTopRequest b channelID responseURL params)
      = Some (before
              ++ EvPostMessage channelID' options
              :: match slack.PostMessage (slackClient b) channelID' options with
                 | Some err => [EvLog [LStr "error sending message:"; LErr err]]
                 | None => []
                 end) /\
      posts before = []).
  { intros channelID responseURL params.
    destruct (TopStories (newsSource b) (requestedSection params) 3)
      as [articles | err] eqn:Hfetch.
    - rewrite (exec_handleTopRequest_Ok b channelID responseURL params _ Hfetch).
      exists [EvTopStories (requestedSection params) 3], channelID.
      eexists. split; reflexivity.
    - rewrite (exec_handleTopRequest_Err b channelID responseURL params _ Hfetch).
      exists [ EvTopStories (requestedSection params) 3;
               EvLog [LStr "error requesting top stories:"; LErr err] ], channelID.
      eexists. split; reflexivity. }
  destruct t as [channelID responseURL params | channelID responseURL params];
    simpl; [|apply Htop].
  destruct (strings.HasPrefix params "stories") eqn:Hprefix.
  - apply HasPrefix_true in Hprefix. destruct Hprefix as [rest ->].
    rewrite exec_processCommand_stories. apply Htop.
  - rewrite (exec_processCommand_other b _ _ _ Hprefix).
    destruct (exec_handleHelpRequest b channelID responseURL) as [options [-> _]].
    exists [], channelID, options. split; reflexivity.
Qed.

End EndpointsMore.

(** A run of [accepted_slash_command_delivery]. *)
Lemma accepted_slash_command_delivery_witness :
  exists tr options,
    serve Fixture.bot
          (Fixture.slashHandler (Fixture.slashRequest "secret" "/news" "Stories Arts"))
    = Some tr /\
    statusOf tr = 200 /\
    posts tr = [("C1", options)] /\
    responseURLOf options = Some "https://hooks/response".
Proof.
  destruct (accepted_slash_command_delivery Fixture.bot Fixture.Request
              Fixture.SlashCommandParse Fixture.ToLower
              (Fixture.slashRequest "secret" "/news" "Stories Arts")
              _ eq_refl eq_refl eq_refl)
    as [tr [options [Hserve [Hstatus [_ [_ [Hposts [_ [Hurl _]]]]]]]]].
  exists tr, options. repeat split; assumption.
Defined.

(** A run of [accepted_interaction_delivery]: the value " Arts" keeps its
    capital letter and loses its space. *)
Lemma accepted_interaction_delivery_witness :
  exists tr options,
    serve Fixture.bot (Fixture.helpHandler (Fixture.helpRequest "secret, Arts")) = Some tr /\
    posts tr = [("C1", options)] /\
    fetches tr = [("Arts", 3)].
Proof.
  destruct (accepted_interaction_delivery Fixture.bot Fixture.Request
              Fixture.ParseForm Fixture.Unmarshal
              (Fixture.helpRequest "secret, Arts") _ _
              {| slack.SelectedOption :=
                   {| slack.optText := None; slack.optValue := " Arts" |} |}
              eq_refl eq_refl eq_refl eq_refl)
    as [tr [options [Hserve [_ [_ [Hposts [_ [_ Hfetch]]]]]]]].
  exists tr, options. repeat split; assumption.
Defined.

(** A run with a Slack client that fails: the trace ends with the log line
    of the failure, after the one message. *)
Lemma failed_delivery_is_logged :
  option_map (fun tr => (List.length (posts tr), List.last tr (EvWrite "")))
             (exec (runTask Fixture.failingBot
                            (GoProcessCommand "C1" "https://hooks/response" "help")))
  = Some (1%nat,
          EvLog [LStr "error sending message:"; LErr (ErrOther "channel_not_found")]).
Proof. reflexivity. Qed.

(** ** More on the news gateway *)

Section GatewayMore.

Variable Time : Type.
Variable formatLocal : Time -> string.
Variable TopNStories :
  string -> string -> Z -> list (nyttop.Article Time) * option nyttop.error.
Variable Sections : string -> option string.

Abbreviation gateway := (NYTimes_NewsSource Time formatLocal TopNStories Sections).

Lemma filter_length_all {A : Type} (keep : A -> bool) (l : list A) :
  List.length (filter keep l) = List.length l <-> forallb keep l = true.
Proof.
  induction l as [|a l IH]; simpl; [tauto|].
  pose proof (filter_length_le keep l) as Hle.
  destruct (keep a); simpl.
  - rewrite <- IH. lia.
  - split; [lia | discriminate].
Qed.

Lemma filter_all {A : Type} (keep : A -> bool) (l : list A) :
  forallb keep l = true -> filter keep l = l.
Proof.
  induction l as [|a l IH]; simpl; [reflexivity|].
  rewrite andb_true_iff. intros [-> Hl]. now rewrite IH.
Qed.

(** X7.  [TopStories] never returns more articles than the upstream sent,
    and it returns as many exactly when every item has a title and a link;
    then the result is the upstream answer converted item by item, each
    date formatted, and an empty answer gives an empty result. *)
Theorem TopStories_keeps_complete_answers
        (nyt : NYTimes) (section : string) (topN : Z)
        (items : list (nyttop.Article Time)) :
  TopNStories (APIKey nyt) section topN = (items, None) ->
  exists result,
    @TopStories NYTimes gateway nyt section topN = Ok result /\
    (List.length result <= List.length items)%nat /\
    (List.length result = List.length items <->
     Forall (fun a => nyttop.Title a <> "" /\ nyttop.ShortURL a <> "") items) /\
    (Forall (fun a => nyttop.Title a <> "" /\ nyttop.ShortURL a <> "") items ->
     result = map (toArticle Time formatLocal) items) /\
    (items = [] -> result = []).
Proof.
  intros Hup.
  exists (map (toArticle Time formatLocal) (filter (hasTitleAndLink Time) items)).
  split; [exact (NYTimes_TopStories_Ok Time formatLocal TopNStories nyt section topN
                   items Hup)|].
  assert (Hall : Forall (fun a => nyttop.Title a <> "" /\ nyttop.ShortURL a <> "") items
                 <-> forallb (hasTitleAndLink Time) items = true).
  { rewrite forallb_forall, Forall_forall.
    split; intros Hi a Ha; apply hasTitleAndLink_true; auto. }
  rewrite length_map. split; [apply filter_length_le|].
  split; [|split].
  - now rewrite Hall, filter_length_all.
  - intros Hcomplete. apply Hall in Hcomplete. now rewrite (filter_all _ _ Hcomplete).
  - intros ->. reflexivity.
Qed.

(** X8.  With the gateway as its news source, the bot answers an upstream
    failure with one text and no block: the invalid-section text when the
    upstream error is the client's invalid-section error, the retry text
    for any other upstream error.  The error is logged (the client's own
    error as it came, its invalid-section error as [ErrInvalidSection]),
    and the items that came with it are not used. *)
Theorem upstream_failure_message
        (b : Bot NYTimes) (channelID responseURL params : string)
        (items : list (nyttop.Article Time)) (e : nyttop.error) :
  TopNStories (APIKey (newsSource b)) (requestedSection params) 3 = (items, Some e) ->
  exists tr options,
    exec (@handleTopRequest NYTimes gateway b channelID responseURL params) = Some tr /\
    posts tr = [(channelID, options)] /\
    blocksOf options = [] /\
    textsOf options
    = [ match e with
        | nyttop.ErrInvalidSection => invalidSectionMessage
        | nyttop.ErrOther _ => retryMessage
        end ] /\
    In (EvLog [ LStr "error requesting top stories:";
                LErr match e with
                     | nyttop.ErrInvalidSection => ErrInvalidSection
                     | nyttop.ErrOther _ => ErrNyttop e
                     end ])
       tr.
Proof.
  intros Hup.
  assert (Hfetch : @TopStories NYTimes gateway (newsSource b) (requestedSection params) 3
                   = Err match e with
                         | nyttop.ErrInvalidSection => ErrInvalidSection
                         | nyttop.ErrOther _ => ErrNyttop e
                         end).
  { simpl. unfold NYTimes_TopStories. rewrite Hup. now destruct e. }
  eexists. eexists.
  rewrite (@exec_handleTopRequest_Err NYTimes gateway b channelID responseURL params
             _ Hfetch).
  split; [reflexivity|].
  rewrite posts_app, (proj1 (proj2 (deliveryLog_quiet b channelID _))).
  split; [reflexivity|]. split; [reflexivity|].
  split; [now destruct e|].
  simpl. right. left. reflexivity.
Qed.

(** The loop of the earlier revision is a map. *)
Lemma rev0_step (acc : list Article) (items : list (nyttop.Article Time)) :
  fold_left
    (fun result a =>
       result ++ [ {| Title := nyttop.Title a; Abstract := nyttop.Abstract a;
                      URL := nyttop.ShortURL a; PublishedAt := "" |} ])
    items acc
  = acc ++ map (fun a => {| Title := nyttop.Title a; Abstract := nyttop.Abstract a;
                            URL := nyttop.ShortURL a; PublishedAt := "" |}) items.
Proof.
  rewrite (fold_left_append
             (fun a => [ {| Title := nyttop.Title a; Abstract := nyttop.Abstract a;
                            URL := nyttop.ShortURL a; PublishedAt := "" |} ])).
  apply (f_equal (app acc)).
  induction items as [|a items IH]; simpl; congruence.
Qed.

(** X9.  The two revisions of [TopStories] side by side.  The earlier one
    returns one article for each upstream item, in order, without a date.
    The later one returns, dates apart, the articles of the earlier one
    that have a title and a link, in the same order. *)
Theorem TopStories_revisions
        (nyt : NYTimes) (section : string) (topN : Z)
        (items : list (nyttop.Article Time)) :
  TopNStories (APIKey nyt) section topN = (items, None) ->
  exists before after,
    NYTimes_TopStories_rev0 Time TopNStories nyt section topN = Ok before /\
    NYTimes_TopStories Time formatLocal TopNStories nyt section topN = Ok after /\
    List.length before = List.length items /\
    map Title before = map nyttop.Title items /\
    Forall (fun a => PublishedAt a = "") before /\
    map (fun a => (Title a, Abstract a, URL a)) after
    = filter (fun x => negb (String.eqb (fst (fst x)) "" || String.eqb (snd x) ""))
             (map (fun a => (Title a, Abstract a, URL a)) before).
Proof.
  intros Hup.
  exists (map (fun a => {| Title := nyttop.Title a; Abstract := nyttop.Abstract a;
                           URL := nyttop.ShortURL a; PublishedAt := "" |}) items).
  exists (map (toArticle Time formatLocal) (filter (hasTitleAndLink Time) items)).
  split; [|split].
  - unfold NYTimes_TopStories_rev0. rewrite Hup, rev0_step. reflexivity.
  - exact (NYTimes_TopStories_Ok Time formatLocal TopNStories nyt section topN items Hup).
  - rewrite length_map. split; [reflexivity|]. split; [now rewrite map_map|].
    split.
    + apply Forall_forall. intros a Ha. apply in_map_iff in Ha.
      now destruct Ha as [item [<- _]].
    + clear Hup. induction items as [|a items IH]; [reflexivity|].
      cbn [map filter]. rewrite <- IH. unfold hasTitleAndLink at 1. cbn [fst snd Title URL].
      now destruct (negb (String.eqb (nyttop.Title a) ""
                          || String.eqb (nyttop.ShortURL a) "")).
Qed.

End GatewayMore.

(** A run of [TopStories_keeps_complete_answers] on the test upstream, whose
    second item has no title: one article fewer than items. *)
Lemma TopStories_keeps_complete_answers_witness :
  exists result,
    TopStories (NewNYTimes "key") "arts" 3 = Ok result /\
    (List.length result <= 3)%nat /\
    List.length result <> 3%nat.
Proof.
  destruct (TopStories_keeps_complete_answers Z Fixture.formatLocal Fixture.TopNStories
              Fixture.Sections (NewNYTimes "key") "arts" 3 _ eq_refl)
    as [result [Hok [Hle [Hall _]]]].
  exists result. split; [exact Hok|]. split; [exact Hle|].
  intros Hlen. apply Hall in Hlen.
  apply Forall_inv_tail in Hlen. apply Forall_inv in Hlen.
  destruct Hlen as [Htitle _]. now apply Htitle.
Defined.

(** Two runs of [upstream_failure_message]. *)
Lemma upstream_failure_message_witness :
  (exists tr options,
      exec (handleTopRequest Fixture.bot "C1" "https://hooks/response" "sports") = Some tr /\
      posts tr = [("C1", options)] /\
      textsOf options = [invalidSectionMessage]) /\
  (exists tr options,
      exec (handleTopRequest Fixture.bot "C1" "https://hooks/response" "down") = Some tr /\
      posts tr = [("C1", options)] /\
      textsOf options = [retryMessage]).
Proof.
  split.
  - destruct (upstream_failure_message Z Fixture.formatLocal Fixture.TopNStories
                Fixture.Sections Fixture.bot "C1" "https://hooks/response" "sports"
                [] nyttop.ErrInvalidSection eq_refl)
      as [tr [options [Hexec [Hposts [_ [Htext _]]]]]].
    exists tr, options. repeat split; assumption.
  - destruct (upstream_failure_message Z Fixture.formatLocal Fixture.TopNStories
                Fixture.Sections Fixture.bot "C1" "https://hooks/response" "down"
                [] (nyttop.ErrOther "503") eq_refl)
      as [tr [options [Hexec [Hposts [_ [Htext _]]]]]].
    exists tr, options. repeat split; assumption.
Defined.

(** A run of [TopStories_revisions] on the test upstream. *)
Lemma TopStories_revisions_witness :
  exists before after,
    NYTimes_TopStories_rev0 Z Fixture.TopNStories (NewNYTimes "key") "arts" 3 = Ok before /\
    NYTimes_TopStories Z Fixture.formatLocal Fixture.TopNStories (NewNYTimes "key") "arts" 3
    = Ok after /\
    map Title before = ["First"; ""; "Third"] /\
    map (fun a => (Title a, Abstract a, URL a)) after
    = filter (fun x => negb (String.eqb (fst (fst x)) "" || String.eqb (snd x) ""))
             (map (fun a => (Title a, Abstract a, URL a)) before).
Proof.
  destruct (TopStories_revisions Z Fixture.formatLocal Fixture.TopNStories
              (NewNYTimes "key") "arts" 3 _ eq_refl)
    as [before [after [Hbefore [Hafter [_ [Htitles [_ Hsub]]]]]]].
  exists before, after. repeat split; assumption.
Defined.

(** ** main.go: the configuration and the routes *)

Section MainFacts.

Variable Load : Env -> Env.
Variable New : string -> slack.Client.
Variable Request : Type.
Variable SlashCommandParse : Request -> result slack.SlashCommand.
Variable ParseForm : Request -> result http.Values.
Variable Unmarshal : string -> result slack.InteractionCallback.
Variable ToLower : string -> string.

(** X10.  The bot that [main] builds checks the token of a slash command
    against the value of SLACK_VERIFICATION_TOKEN in the environment that
    [initConfig] leaves: 200 when they are equal, 401 when not.  That
    environment is the process environment unless ENV is "taina-local",
    and the .env file is read only then.  An unset variable reads as the
    empty string, so without the variable a command with an empty token is
    accepted. *)
Theorem main_token_check (env : Env) (r : Request) (s : slack.SlashCommand) :
  SlashCommandParse r = Ok s ->
  slack.Command s = "/news" ->
  exists tr,
    exec (HandleSlashCommand Request SlashCommandParse ToLower (mainBot Load New env) r)
    = Some tr /\
    statusOf tr
    = (if String.eqb (slack.scToken s)
                     (Getenv (snd (initConfig Load env)) "SLACK_VERIFICATION_TOKEN")
       then 200 else 401) /\
    (Getenv env "ENV" <> "taina-local" -> snd (initConfig Load env) = env) /\
    (Getenv env "ENV" = "taina-local" -> snd (initConfig Load env) = Load env) /\
    (Getenv env "ENV" <> "taina-local" ->
     env "SLACK_VERIFICATION_TOKEN" = None ->
     slack.scToken s = "" ->
     statusOf tr = 200).
Proof.
  intros Hparse Hcommand.
  assert (Hsecret : slackVerificationToken (mainBot Load New env)
                    = Getenv (snd (initConfig Load env)) "SLACK_VERIFICATION_TOKEN")
    by reflexivity.
  assert (Hplain : Getenv env "ENV" <> "taina-local" -> snd (initConfig Load env) = env).
  { intros Henv. unfold initConfig. apply String.eqb_neq in Henv. now rewrite Henv. }
  assert (Hlocal : Getenv env "ENV" = "taina-local" -> snd (initConfig Load env) = Load env).
  { intros Henv. unfold initConfig. now rewrite Henv. }
  assert (Hstatus : exists tr,
    exec (HandleSlashCommand Request SlashCommandParse ToLower (mainBot Load New env) r)
    = Some tr /\
    statusOf tr
    = (if String.eqb (slack.scToken s)
                     (Getenv (snd (initConfig Load env)) "SLACK_VERIFICATION_TOKEN")
       then 200 else 401)).
  { rewrite <- Hsecret.
    destruct (String.eqb (slack.scToken s) (slackVerificationToken (mainBot Load New env)))
      eqn:Htoken.
    - apply String.eqb_eq in Htoken. eexists.
      rewrite (exec_HandleSlashCommand_accepted (mainBot Load New env) Request
                 SlashCommandParse ToLower r s Hparse Htoken Hcommand).
      split; reflexivity.
    - apply String.eqb_neq in Htoken. eexists.
      rewrite (exec_HandleSlashCommand_bad_token (mainBot Load New env) Request
                 SlashCommandParse ToLower r s Hparse Htoken).
      split; reflexivity. }
  destruct Hstatus as [tr [Hexec Hstatus]].
  exists tr. split; [exact Hexec|]. split; [exact Hstatus|].
  split; [exact Hplain|]. split; [exact Hlocal|].
  intros Henv Hunset Hempty.
  rewrite Hstatus, (Hplain Henv), Hempty. unfold Getenv. now rewrite Hunset.
Qed.

Context {T : Type} `{NewsSource T}.
Variable b : Bot T.

(** X11.  Both revisions of [main] register their patterns without a
    panic.  Only the path "/receive" reaches [HandleSlashCommand] and only
    "/receive/help" reaches [HandleHelpInteraction]: every other path is
    answered by the handler of "/" where there is one (the path starts with
    a slash), and with 404 where there is none. *)
Theorem only_two_paths_reach_the_bot (path : string) (r : Request) :
  exists mux mux0,
    routes = Some mux /\
    routes_rev0 = Some mux0 /\
    exec (ServeHTTP Request SlashCommandParse ParseForm Unmarshal ToLower mux b path r)
    = (if String.eqb path "/receive"
       then exec (HandleSlashCommand Request SlashCommandParse ToLower b r)
       else if String.eqb path "/receive/help"
            then exec (HandleHelpInteraction Request ParseForm Unmarshal b r)
            else if strings.HasPrefix path "/"
                 then Some [EvWrite "Hello world!"]
                 else Some [EvWriteHeader 404;
                            EvWrite ("404 page not found" +++ String "010" "")]) /\
    exec (ServeHTTP Request SlashCommandParse ParseForm Unmarshal ToLower mux0 b path r)
    = (if String.eqb path "/receive"
       then exec (HandleSlashCommand Request SlashCommandParse ToLower b r)
       else if String.eqb path "/receive/help"
            then exec (HandleHelpInteraction Request ParseForm Unmarshal b r)
            else Some [EvWriteHeader 404;
                       EvWrite ("404 page not found" +++ String "010" "")]).
Proof.
  exists [("/", HelloWorld); ("/receive", SlashCommand); ("/receive/help", HelpInteraction)].
  exists [("/receive", SlashCommand); ("/receive/help", HelpInteraction)].
  split; [reflexivity|]. split; [reflexivity|].
  unfold ServeHTTP, muxMatch.
  cbn [exactMatch longestMatch strings.last option_map snd].
  rewrite (String.eqb_sym "/receive" path), (String.eqb_sym "/receive/help" path).
  split.
  - destruct (String.eqb "/" path) eqn:Hroot.
    + apply String.eqb_eq in Hroot. subst path. reflexivity.
    + destruct (String.eqb path "/receive"); [reflexivity|].
      destruct (String.eqb path "/receive/help"); [reflexivity|].
      simpl Ascii.eqb. cbn [andb].
      destruct (strings.HasPrefix path "/"); reflexivity.
  - destruct (String.eqb path "/receive"); [reflexivity|].
    destruct (String.eqb path "/receive/help"); reflexivity.
Qed.

End MainFacts.

(** Two runs of [main_token_check]: the secret of the environment is
    accepted, and with no secret in the environment the empty token is. *)
Lemma main_token_check_witness :
  (exists tr,
      exec (HandleSlashCommand Fixture.Request Fixture.SlashCommandParse Fixture.ToLower
              (mainBot Fixture.Load Fixture.New Fixture.env)
              (Fixture.slashRequest "secret" "/news" "stories"))
      = Some tr /\
      statusOf tr = 200) /\
  (exists tr,
      exec (HandleSlashCommand Fixture.Request Fixture.SlashCommandParse Fixture.ToLower
              (mainBot Fixture.Load Fixture.New Fixture.envNoSecret)
              (Fixture.slashRequest "" "/news" "stories"))
      = Some tr /\
      statusOf tr = 200).
Proof.
  split.
  - destruct (main_token_check Fixture.Load Fixture.New Fixture.Request
                Fixture.SlashCommandParse Fixture.ToLower Fixture.env
                (Fixture.slashRequest "secret" "/news" "stories") _ eq_refl eq_refl)
      as [tr [Hexec [Hstatus _]]].
    exists tr. split; [exact Hexec | exact Hstatus].
  - destruct (main_token_check Fixture.Load Fixture.New Fixture.Request
                Fixture.SlashCommandParse Fixture.ToLower Fixture.envNoSecret
                (Fixture.slashRequest "" "/news" "stories") _ eq_refl eq_refl)
      as [tr [Hexec [_ [_ [_ Hempty]]]]].
    exists tr. split; [exact Hexec|].
    apply Hempty; [simpl; discriminate | reflexivity | reflexivity].
Defined.

(** ** The help message *)

Section HelpMessage.

Context {T : Type} `{NewsSource T}.
Variable b : Bot T.

(** X13.  Whatever the text that is not a "stories" command and whether
    the delivery succeeds or not, the help goroutine calls the news source
    for nothing and hands the Slack client one message, ephemeral, for the
    channel and the response URL it was given: a header "How to use", a
    divider and a section "Choose a news section" with the three options
    General, Arts and Politics valued home, arts and politics. *)
Theorem help_message (channelID responseURL params : string) :
  strings.HasPrefix params "stories" = false ->
  exists tr options,
    exec (processCommand b channelID responseURL params) = Some tr /\
    fetches tr = [] /\
    posts tr = [(channelID, options)] /\
    isEphemeral options = true /\
    responseURLOf options = Some responseURL /\
    textsOf options = [] /\
    map kindOf (blocksOf options) = [Header; Divider; Content] /\
    map blockText (blocksOf options) = ["How to use"; ""; "Choose a news section"] /\
    flat_map optionPairs (blocksOf options)
    = [("General", "home"); ("Arts", "arts"); ("Politics", "politics")].
Proof.
  intros Hprefix. rewrite (exec_processCommand_other b _ _ _ Hprefix).
  unfold exec, handleHelpRequest. rewrite run_postMessage.
  eexists. eexists. split; [reflexivity|].
  cbn [app fetches posts].
  rewrite (proj1 (deliveryLog_quiet b channelID _)).
  rewrite (proj1 (proj2 (deliveryLog_quiet b channelID _))).
  repeat split.
Qed.

End HelpMessage.

(** Two runs of [help_message]: the empty text and the text "help". *)
Lemma help_message_witness :
  (exists tr options,
      exec (processCommand Fixture.bot "C1" "https://hooks/response" "") = Some tr /\
      posts tr = [("C1", options)] /\
      flat_map optionPairs (blocksOf options)
      = [("General", "home"); ("Arts", "arts"); ("Politics", "politics")]) /\
  (exists tr options,
      exec (processCommand Fixture.failingBot "C1" "https://hooks/response" "help")
      = Some tr /\
      posts tr = [("C1", options)] /\
      flat_map optionPairs (blocksOf options)
      = [("General", "home"); ("Arts", "arts"); ("Politics", "politics")]).
Proof.
  split.
  - destruct (help_message Fixture.bot "C1" "https://hooks/response" "" eq_refl)
      as [tr [options [Hexec [_ [Hposts [_ [_ [_ [_ [_ Hpairs]]]]]]]]]].
    exists tr, options. repeat split; assumption.
  - destruct (help_message Fixture.failingBot "C1" "https://hooks/response" "help" eq_refl)
      as [tr [options [Hexec [_ [Hposts [_ [_ [_ [_ [_ Hpairs]]]]]]]]]].
    exists tr, options. repeat split; assumption.
Defined.
